(** * strainminer_logging: the statistics records and their document form

    A shallow embedding of the Python package [strainminer_logging]
    (binmatrix.py, strips/bipart.py, strips/hca.py, strips/qbc.py,
    postprocess.py, loci_window.py, contig.py) and the properties of its
    [to_dict] / [from_dict] conversions.

    Conventions of the embedding.
    - A Python object that travels through a document (what [yaml.safe_load]
      returns and what [to_dict] builds) is a [pyval].  A [dict] is the list
      of its items in insertion order, with string keys.
    - The classes do not check the type of what they store, so a scalar
      attribute of a record is a [pyval] as well; attributes that hold
      another record, an enum member or a list of records are typed.
    - A Python [float] is modelled by the rational it stands for, together
      with the two infinities and NaN: rounding to binary64 is not modelled.
    - A call that may raise returns a [result]; the order of the binds is
      the evaluation order of the Python expression. *)

From Stdlib Require Import ZArith QArith List String Bool Lia Permutation.
Import ListNotations.
Open Scope Z_scope.
Set Warnings "-register-all".

(** ** Python values *)

Inductive pyfloat : Type :=
| FFin (q : Q)
| FInf (negative : bool)
| FNaN.

Inductive pyval : Type :=
| PNone
| PBool (b : bool)
| PInt (z : Z)
| PFloat (f : pyfloat)
| PStr (s : string)
| PList (l : list pyval)
| PDict (items : list (string * pyval)).

(** [f == n] for a float [f] and an integer [n]; NaN equals nothing. *)
Definition pyfloat_eq_Z (f : pyfloat) (n : Z) : bool :=
  match f with
  | FFin q => Qeq_bool q (inject_Z n)
  | FInf _ | FNaN => false
  end.

(** ** Exceptions and the error monad *)

Inductive exn : Type :=
| KeyError (key : string)
| TypeError
| ValueError.

Inductive result (A : Type) : Type :=
| Ok (a : A)
| Err (e : exn).
Arguments Ok {A} a.
Arguments Err {A} e.

Definition bind {A B : Type} (m : result A) (k : A -> result B) : result B :=
  match m with
  | Ok a => k a
  | Err e => Err e
  end.

Notation "x <- m ;; k" := (bind m (fun x => k))
  (at level 61, m at next level, right associativity).

(** [list(f(x) for x in xs)]: the elements are converted from left to right
    and the first exception ends the loop. *)
Fixpoint mapM {A B : Type} (f : A -> result B) (xs : list A) : result (list B) :=
  match xs with
  | [] => Ok []
  | x :: xs' => y <- f x ;; ys <- mapM f xs' ;; Ok (y :: ys)
  end.

Definition is_ok {A : Type} (m : result A) : bool :=
  match m with Ok _ => true | Err _ => false end.

(** ** Dictionaries and iteration *)

Fixpoint dict_lookup (items : list (string * pyval)) (k : string) : option pyval :=
  match items with
  | [] => None
  | (k', v) :: rest => if String.eqb k' k then Some v else dict_lookup rest k
  end.

Definition dict_keys (d : pyval) : list string :=
  match d with
  | PDict items => map fst items
  | _ => []
  end.

(** [d[k]] for a string key [k]: [KeyError(k)] on a dict without the key,
    [TypeError] on anything that is not a dict (a list or a string wants
    integer indices, the other values are not subscriptable). *)
Definition getitem (d : pyval) (k : string) : result pyval :=
  match d with
  | PDict items =>
      match dict_lookup items k with
      | Some v => Ok v
      | None => Err (KeyError k)
      end
  | _ => Err TypeError
  end.

Fixpoint chars (s : string) : list pyval :=
  match s with
  | EmptyString => []
  | String c s' => PStr (String c EmptyString) :: chars s'
  end.

(** [iter(v)]: what a [for] loop over [v] visits.  A dict yields its keys,
    a string its characters; None, booleans and numbers are not iterable. *)
Definition py_iter (v : pyval) : result (list pyval) :=
  match v with
  | PList l => Ok l
  | PDict items => Ok (map (fun kv => PStr (fst kv)) items)
  | PStr s => Ok (chars s)
  | _ => Err TypeError
  end.

Definition is_None (v : pyval) : bool :=
  match v with PNone => true | _ => false end.

(** ** Indexing a list

    [l[i]] for an integer [i]: indices from [-len(l)] to [len(l) - 1] are
    valid, a negative one counts from the end, any other raises
    [IndexError]. *)
Inductive indexed (A : Type) : Type :=
| Item (a : A)
| IndexError.
Arguments Item {A} a.
Arguments IndexError {A}.

Definition list_getitem {A : Type} (l : list A) (i : Z) : indexed A :=
  let n := Z.of_nat (List.length l) in
  let j := if i <? 0 then n + i else i in
  if (0 <=? j) && (j <? n) then
    match nth_error l (Z.to_nat j) with
    | Some a => Item a
    | None => IndexError
    end
  else IndexError.

(** [l.insert(i, x)]: a negative [i] counts from the end, and an index
    beyond either end is moved to that end. *)
Definition list_insert {A : Type} (l : list A) (i : Z) (x : A) : list A :=
  let n := Z.of_nat (List.length l) in
  let j := if i <? 0 then Z.max 0 (n + i) else Z.min i n in
  firstn (Z.to_nat j) l ++ x :: skipn (Z.to_nat j) l.

(** The list after [l.pop(i)]: the element at [i] is removed; when [i] is
    out of range [IndexError] is raised and the list is as it was. *)
Definition list_pop {A : Type} (l : list A) (i : Z) : list A :=
  let n := Z.of_nat (List.length l) in
  let j := if i <? 0 then n + i else i in
  if (0 <=? j) && (j <? n) then
    firstn (Z.to_nat j) l ++ skipn (S (Z.to_nat j)) l
  else l.

(** ** pandas data frames, as far as [from_bin_dataframe] looks at them *)

Inductive cell : Type :=
| CBool (b : bool)
| CInt (z : Z)
| CFloat (f : pyfloat)
| CStr (s : string).

(** The element-wise comparison [cell == n]. *)
Definition cell_eq (c : cell) (n : Z) : bool :=
  match c with
  | CBool b => Z.b2z b =? n
  | CInt z => z =? n
  | CFloat f => pyfloat_eq_Z f n
  | CStr _ => false
  end.

(** A frame is stored by columns; [index_size] is the number of rows, which
    a frame keeps also when it has no column. *)
Record DataFrame : Type := mkDataFrame {
  index_size : nat;
  columns : list (list cell)
}.

Definition DataFrame_wf (df : DataFrame) : Prop :=
  Forall (fun col => List.length col = index_size df) (columns df).

(** [df.shape] *)
Definition shape (df : DataFrame) : Z * Z :=
  (Z.of_nat (index_size df), Z.of_nat (List.length (columns df))).

(** [df == n]: a frame of booleans of the same shape. *)
Definition df_eq (df : DataFrame) (n : Z) : list (list bool) :=
  map (map (fun c => cell_eq c n)) (columns df).

(** [Series.sum()] over integers or booleans. *)
Definition series_sum (s : list Z) : Z := fold_right Z.add 0 s.

(** [DataFrame.sum()] of a boolean frame: one count per column. *)
Definition frame_sum (bf : list (list bool)) : list Z :=
  map (fun col => series_sum (map Z.b2z col)) bf.

(** *** NumPy true division

    [(df == 1).sum().sum()] is a NumPy integer, so [/] is NumPy's
    [true_divide]: it never raises [ZeroDivisionError]; a zero divisor sets a
    floating-point error flag (reported as a [RuntimeWarning] under the
    default error state) and the quotient is NaN or an infinity. *)
Inductive np_flag : Type :=
| FlagDivide    (* "divide by zero encountered" *)
| FlagInvalid.  (* "invalid value encountered" *)

Definition np_true_divide (a b : Z) : pyfloat * list np_flag :=
  if b =? 0 then
    if a =? 0 then (FNaN, [FlagInvalid])
    else (FInf (a <? 0), [FlagDivide])
  else (FFin (Qred (inject_Z a / inject_Z b)), []).

(** ** binmatrix.py *)

Module BinMatrixStats.

Definition NUMBER_OF_ROWS_KEY : string := "number_of_rows".
Definition NUMBER_OF_COLUMNS_KEY : string := "number_of_columns".
Definition NUMBER_OF_ONES_KEY : string := "number_of_ones".
Definition NUMBER_OF_ZEROS_KEY : string := "number_of_zeros".
Definition DENSITY_KEY : string := "density".
Definition SPARSITY_KEY : string := "sparsity".

Record t : Type := mk {
  number_of_rows : pyval;
  number_of_columns : pyval;
  number_of_ones : pyval;
  number_of_zeros : pyval;
  density : pyval;
  sparsity : pyval
}.

Definition from_dict (bin_matrix_stats_dict : pyval) : result t :=
  r <- getitem bin_matrix_stats_dict NUMBER_OF_ROWS_KEY ;;
  c <- getitem bin_matrix_stats_dict NUMBER_OF_COLUMNS_KEY ;;
  o <- getitem bin_matrix_stats_dict NUMBER_OF_ONES_KEY ;;
  z <- getitem bin_matrix_stats_dict NUMBER_OF_ZEROS_KEY ;;
  d <- getitem bin_matrix_stats_dict DENSITY_KEY ;;
  s <- getitem bin_matrix_stats_dict SPARSITY_KEY ;;
  Ok (mk r c o z d s).

(** Returns the record and the NumPy flags of its two divisions.  The two
    counts are integers when the frame has a column.  For a frame without
    columns pandas reduces an empty float Series and the counts are the
    floats 0.0, which this definition renders as the integers 0: the
    statements about the counts are made for frames with a column. *)
Definition from_bin_dataframe (df : DataFrame) : t * list np_flag :=
  let number_of_ones := series_sum (frame_sum (df_eq df 1)) in
  let number_of_zeros := series_sum (frame_sum (df_eq df 0)) in
  let number_of_cells := fst (shape df) * snd (shape df) in
  let (dens, w1) := np_true_divide number_of_ones number_of_cells in
  let (spar, w2) := np_true_divide number_of_zeros number_of_cells in
  (mk (PInt (fst (shape df)))
      (PInt (snd (shape df)))
      (PInt number_of_ones)
      (PInt number_of_zeros)
      (PFloat dens)
      (PFloat spar),
   w1 ++ w2).

Definition to_dict (self : t) : pyval :=
  PDict [ (NUMBER_OF_ROWS_KEY, number_of_rows self);
          (NUMBER_OF_COLUMNS_KEY, number_of_columns self);
          (NUMBER_OF_ONES_KEY, number_of_ones self);
          (NUMBER_OF_ZEROS_KEY, number_of_zeros self);
          (DENSITY_KEY, density self);
          (SPARSITY_KEY, sparsity self) ].

(** The instance methods of the class, and the state of [self] after a
    call.  A method that only reads returns, and leaves [self] as it was. *)
Inductive method : Type :=
| call_number_of_rows
| call_number_of_columns
| call_number_of_ones
| call_number_of_zeros
| call_density
| call_sparsity
| call_to_dict
| call___str__.

Definition run (self : t) (m : method) : t :=
  match m with
  | _ => self
  end.

End BinMatrixStats.

(** ** strips/bipart.py *)

Module BiPartClass.

Inductive t : Type := ZERO | ONE.

(** [member.value] *)
Definition value (c : t) : Z :=
  match c with ZERO => 0 | ONE => 1 end.

(** [BiPartClass(v)]: the member whose value equals [v].  The enum looks
    [v] up by hash and equality, so [False], [0] and [0.0] all name ZERO
    and [True], [1] and [1.0] all name ONE; anything else is a
    [ValueError]. *)
Definition of_value (v : pyval) : result t :=
  match v with
  | PInt z => if z =? 0 then Ok ZERO else if z =? 1 then Ok ONE else Err ValueError
  | PBool b => if b then Ok ONE else Ok ZERO
  | PFloat f =>
      if pyfloat_eq_Z f 0 then Ok ZERO
      else if pyfloat_eq_Z f 1 then Ok ONE
      else Err ValueError
  | _ => Err ValueError
  end.

Definition complement (self : t) : result t :=
  of_value (PInt (1 - value self)).

End BiPartClass.

Module BiPartStats.

Definition KEY_INDEX : string := "index".
Definition KEY_BIPART_CLASS : string := "class".
Definition KEY_BINMATRIX_STATS : string := "binmatrix_stats".

Record t : Type := mk {
  index : pyval;
  bipart_class : BiPartClass.t;
  binmatrix_stats : BinMatrixStats.t
}.

Definition from_dict (d : pyval) : result t :=
  i <- getitem d KEY_INDEX ;;
  cv <- getitem d KEY_BIPART_CLASS ;;
  c <- BiPartClass.of_value cv ;;
  bd <- getitem d KEY_BINMATRIX_STATS ;;
  b <- BinMatrixStats.from_dict bd ;;
  Ok (mk i c b).

Definition to_dict (self : t) : pyval :=
  PDict [ (KEY_INDEX, index self);
          (KEY_BIPART_CLASS, PInt (BiPartClass.value (bipart_class self)));
          (KEY_BINMATRIX_STATS, BinMatrixStats.to_dict (binmatrix_stats self)) ].

(** The instance methods of the class, and the state of [self] after a
    call.  A method that only reads returns, and leaves [self] as it was. *)
Inductive method : Type :=
| call_index
| call_bipart_class
| call_binmatrix_stats
| call_to_dict
| call___str__.

Definition run (self : t) (m : method) : t :=
  match m with
  | _ => self
  end.

End BiPartStats.

(** ** strips/qbc.py *)

Module UnassignedReadStats.

Definition KEY_READ_ID : string := "read_id".
Definition KEY_NUMBER_OF_ONES : string := "number_of_ones".
Definition KEY_NUMBER_OF_ZEROS : string := "number_of_zeros".

Record t : Type := mk {
  read_id : pyval;
  number_of_ones : pyval;
  number_of_zeros : pyval
}.

Definition from_dict (d : pyval) : result t :=
  r <- getitem d KEY_READ_ID ;;
  o <- getitem d KEY_NUMBER_OF_ONES ;;
  z <- getitem d KEY_NUMBER_OF_ZEROS ;;
  Ok (mk r o z).

Definition to_dict (self : t) : pyval :=
  PDict [ (KEY_READ_ID, read_id self);
          (KEY_NUMBER_OF_ONES, number_of_ones self);
          (KEY_NUMBER_OF_ZEROS, number_of_zeros self) ].

(** The instance methods of the class, and the state of [self] after a
    call.  A method that only reads returns, and leaves [self] as it was. *)
Inductive method : Type :=
| call_read_id
| call_number_of_ones
| call_number_of_zeros
| call_to_dict.

Definition run (self : t) (m : method) : t :=
  match m with
  | _ => self
  end.

End UnassignedReadStats.

Module QBCStripStats.

Definition KEY_INDEX : string := "index".
Definition KEY_NUMBER_OF_COLUMNS : string := "number_of_columns".
Definition KEY_BIPART_STATS : string := "bipart_stats".
Definition KEY_UNASSIGNED_READS : string := "unassigned_reads".

Record t : Type := mk {
  index : pyval;
  number_of_columns : pyval;
  bipart_stats : list BiPartStats.t;
  unassigned_reads : list UnassignedReadStats.t
}.

(** The two generator expressions are created (their iterable looked up
    and [iter] called on it) while the arguments are evaluated; [__init__]
    then runs them with [list(...)], the biparts first. *)
Definition from_dict (d : pyval) : result t :=
  i <- getitem d KEY_INDEX ;;
  n <- getitem d KEY_NUMBER_OF_COLUMNS ;;
  bn <- getitem d KEY_BIPART_STATS ;;
  bi <- py_iter bn ;;
  un <- getitem d KEY_UNASSIGNED_READS ;;
  ui <- py_iter un ;;
  bs <- mapM BiPartStats.from_dict bi ;;
  us <- mapM UnassignedReadStats.from_dict ui ;;
  Ok (mk i n bs us).

Definition iter_biparts (self : t) : list BiPartStats.t := bipart_stats self.
Definition number_of_biparts (self : t) : nat := List.length (bipart_stats self).
Definition iter_unassigned_reads (self : t) : list UnassignedReadStats.t :=
  unassigned_reads self.
Definition number_of_unassigned_reads (self : t) : nat :=
  List.length (unassigned_reads self).

(** The methods that assign to an attribute return the updated record. *)
Definition set_number_of_columns (self : t) (number_of_columns' : pyval) : t :=
  mk (index self) number_of_columns' (bipart_stats self) (unassigned_reads self).

Definition add_bipart_stats (self : t) (b : BiPartStats.t) : t :=
  mk (index self) (number_of_columns self) (bipart_stats self ++ [b])
     (unassigned_reads self).

Definition add_unassigned_read (self : t) (u : UnassignedReadStats.t) : t :=
  mk (index self) (number_of_columns self) (bipart_stats self)
     (unassigned_reads self ++ [u]).

Definition to_dict (self : t) : pyval :=
  PDict [ (KEY_INDEX, index self);
          (KEY_NUMBER_OF_COLUMNS, number_of_columns self);
          (KEY_BIPART_STATS, PList (map BiPartStats.to_dict (bipart_stats self)));
          (KEY_UNASSIGNED_READS,
           PList (map UnassignedReadStats.to_dict (unassigned_reads self))) ].

Definition get_bipart (self : t) (idx : Z) : indexed BiPartStats.t :=
  list_getitem (bipart_stats self) idx.
Definition get_unassigned_read (self : t) (idx : Z) : indexed UnassignedReadStats.t :=
  list_getitem (unassigned_reads self) idx.

(** The instance methods of the class, and the state of [self] after a
    call.  A method that only reads returns, and leaves [self] as it was. *)
Inductive method : Type :=
| call_index
| call_number_of_columns
| call_iter_biparts
| call_get_bipart (idx : Z)
| call_number_of_biparts
| call_iter_unassigned_reads
| call_get_unassigned_read (idx : Z)
| call_number_of_unassigned_reads
| call_set_number_of_columns (n : pyval)
| call_add_bipart_stats (b : BiPartStats.t)
| call_add_unassigned_read (u : UnassignedReadStats.t)
| call_to_dict.

Definition run (self : t) (m : method) : t :=
  match m with
  | call_set_number_of_columns n => set_number_of_columns self n
  | call_add_bipart_stats b => add_bipart_stats self b
  | call_add_unassigned_read u => add_unassigned_read self u
  | _ => self
  end.

End QBCStripStats.

Module QBCTrashStripStats.

Definition KEY_INDEX : string := "index".
Definition KEY_MATRIX_STATS : string := "matrix_stats".

Record t : Type := mk {
  index : pyval;
  matrix_stats : BinMatrixStats.t
}.

Definition from_dict (d : pyval) : result t :=
  i <- getitem d KEY_INDEX ;;
  md <- getitem d KEY_MATRIX_STATS ;;
  m <- BinMatrixStats.from_dict md ;;
  Ok (mk i m).

Definition to_dict (self : t) : pyval :=
  PDict [ (KEY_INDEX, index self);
          (KEY_MATRIX_STATS, BinMatrixStats.to_dict (matrix_stats self)) ].

(** The instance methods of the class, and the state of [self] after a
    call.  A method that only reads returns, and leaves [self] as it was. *)
Inductive method : Type :=
| call_index
| call_matrix_stats
| call_to_dict
| call_to_yaml.

Definition run (self : t) (m : method) : t :=
  match m with
  | _ => self
  end.

End QBCTrashStripStats.

Module QBCStripStatsCollection.

(** The only attribute is the list of strip stats. *)
Definition t : Type := list QBCStripStats.t.

Definition from_dicts (strips_stats : pyval) : result t :=
  it <- py_iter strips_stats ;;
  mapM QBCStripStats.from_dict it.

Definition empty : t := [].
Definition append (self : t) (s : QBCStripStats.t) : t := self ++ [s].
Definition iter (self : t) : list QBCStripStats.t := self.

Definition to_dicts (self : t) : pyval :=
  PList (map QBCStripStats.to_dict (iter self)).

Definition __len__ (self : t) : Z := Z.of_nat (List.length self).
Definition __getitem__ (self : t) (index : Z) : indexed QBCStripStats.t :=
  list_getitem self index.

(** The instance methods of the class, and the state of [self] after a
    call.  A method that only reads returns, and leaves [self] as it was. *)
Inductive method : Type :=
| call_append (x : QBCStripStats.t)
| call___len__
| call___iter__
| call___getitem__ (index : Z)
| call_to_dicts
| call_to_yaml.

Definition run (self : t) (m : method) : t :=
  match m with
  | call_append x => append self x
  | _ => self
  end.

End QBCStripStatsCollection.

Module QBCProcessStats.

Definition KEY_HIGH_QUALITY_STRIPS_STATS : string := "high_quality_strips_stats".
Definition KEY_TRASH_STRIP_STATS : string := "trash_strip_stats".

Record t : Type := mk {
  high_quality_strips_stats : QBCStripStatsCollection.t;
  trash_strip_stats : option QBCTrashStripStats.t
}.

Definition from_dict (d : pyval) : result t :=
  hn <- getitem d KEY_HIGH_QUALITY_STRIPS_STATS ;;
  h <- QBCStripStatsCollection.from_dicts hn ;;
  cond <- getitem d KEY_TRASH_STRIP_STATS ;;
  tr <- (if is_None cond then Ok None
         else tn <- getitem d KEY_TRASH_STRIP_STATS ;;
              x <- QBCTrashStripStats.from_dict tn ;;
              Ok (Some x)) ;;
  Ok (mk h tr).

Definition to_dict (self : t) : pyval :=
  PDict [ (KEY_HIGH_QUALITY_STRIPS_STATS,
           QBCStripStatsCollection.to_dicts (high_quality_strips_stats self));
          (KEY_TRASH_STRIP_STATS,
           match trash_strip_stats self with
           | Some x => QBCTrashStripStats.to_dict x
           | None => PNone
           end) ].

(** The instance methods of the class, and the state of [self] after a
    call.  A method that only reads returns, and leaves [self] as it was. *)
Inductive method : Type :=
| call_high_quality_strips_stats
| call_trash_strip_stats
| call_to_dict.

Definition run (self : t) (m : method) : t :=
  match m with
  | _ => self
  end.

End QBCProcessStats.

(** ** strips/hca.py *)

Module HCAPreStripStatsCollection.

Definition t : Type := list BinMatrixStats.t.

Definition from_dicts (dicts : pyval) : result t :=
  it <- py_iter dicts ;;
  mapM BinMatrixStats.from_dict it.

Definition empty : t := [].
Definition append (self : t) (b : BinMatrixStats.t) : t := self ++ [b].
Definition extend (self : t) (bs : list BinMatrixStats.t) : t := self ++ bs.
Definition iter (self : t) : list BinMatrixStats.t := self.

Definition to_dicts (self : t) : pyval :=
  PList (map BinMatrixStats.to_dict (iter self)).

Definition __len__ (self : t) : Z := Z.of_nat (List.length self).
Definition __getitem__ (self : t) (index : Z) : indexed BinMatrixStats.t :=
  list_getitem self index.

(** The instance methods of the class, and the state of [self] after a
    call.  A method that only reads returns, and leaves [self] as it was. *)
Inductive method : Type :=
| call_append (x : BinMatrixStats.t)
| call_extend (xs : list BinMatrixStats.t)
| call___len__
| call___iter__
| call___getitem__ (index : Z)
| call_to_dicts
| call_to_yaml.

Definition run (self : t) (m : method) : t :=
  match m with
  | call_append x => append self x
  | call_extend xs => extend self xs
  | _ => self
  end.

End HCAPreStripStatsCollection.

Module LowQualityHCAStripStats.

Definition KEY_STRIP_NUMBER : string := "strip_number".
Definition KEY_NUMBER_OF_COLUMNS : string := "number_of_columns".
Definition KEY_BIN_MATRICES_STATS : string := "bin_matrices_stats".

Record t : Type := mk {
  strip_number : pyval;
  number_of_columns : pyval;
  bin_matrices_stats : list BinMatrixStats.t
}.

Definition from_dict (dict_ : pyval) : result t :=
  s <- getitem dict_ KEY_STRIP_NUMBER ;;
  n <- getitem dict_ KEY_NUMBER_OF_COLUMNS ;;
  bn <- getitem dict_ KEY_BIN_MATRICES_STATS ;;
  bi <- py_iter bn ;;
  bs <- mapM BinMatrixStats.from_dict bi ;;
  Ok (mk s n bs).

Definition to_dict (self : t) : pyval :=
  PDict [ (KEY_STRIP_NUMBER, strip_number self);
          (KEY_NUMBER_OF_COLUMNS, number_of_columns self);
          (KEY_BIN_MATRICES_STATS,
           PList (map BinMatrixStats.to_dict (bin_matrices_stats self))) ].

(** The instance methods of the class, and the state of [self] after a
    call.  A method that only reads returns, and leaves [self] as it was. *)
Inductive method : Type :=
| call_strip_number
| call_number_of_columns
| call_bin_matrices_stats
| call_to_dict.

Definition run (self : t) (m : method) : t :=
  match m with
  | _ => self
  end.

End LowQualityHCAStripStats.

Module LowQualityHCAStripStatsCollection.

Definition t : Type := list LowQualityHCAStripStats.t.

Definition from_dicts (dicts : pyval) : result t :=
  it <- py_iter dicts ;;
  mapM LowQualityHCAStripStats.from_dict it.

Definition empty : t := [].
Definition append (self : t) (s : LowQualityHCAStripStats.t) : t := self ++ [s].
Definition extend (self : t) (ss : list LowQualityHCAStripStats.t) : t := self ++ ss.
Definition iter (self : t) : list LowQualityHCAStripStats.t := self.

Definition to_dicts (self : t) : pyval :=
  PList (map LowQualityHCAStripStats.to_dict (iter self)).

Definition __len__ (self : t) : Z := Z.of_nat (List.length self).
Definition __getitem__ (self : t) (index : Z) : indexed LowQualityHCAStripStats.t :=
  list_getitem self index.

(** The instance methods of the class, and the state of [self] after a
    call.  A method that only reads returns, and leaves [self] as it was. *)
Inductive method : Type :=
| call_append (x : LowQualityHCAStripStats.t)
| call_extend (xs : list LowQualityHCAStripStats.t)
| call___len__
| call___iter__
| call___getitem__ (index : Z)
| call_to_dicts
| call_to_yaml.

Definition run (self : t) (m : method) : t :=
  match m with
  | call_append x => append self x
  | call_extend xs => extend self xs
  | _ => self
  end.

End LowQualityHCAStripStatsCollection.

Module HCAStripStats.

Definition KEY_INDEX : string := "index".
Definition KEY_NUMBER_OF_COLUMNS : string := "number_of_columns".
Definition KEY_BIPART_STATS : string := "bipart_stats".

Record t : Type := mk {
  index : pyval;
  number_of_columns : pyval;
  bipart_stats : list BiPartStats.t
}.

Definition from_dict (d : pyval) : result t :=
  i <- getitem d KEY_INDEX ;;
  n <- getitem d KEY_NUMBER_OF_COLUMNS ;;
  bn <- getitem d KEY_BIPART_STATS ;;
  bi <- py_iter bn ;;
  bs <- mapM BiPartStats.from_dict bi ;;
  Ok (mk i n bs).

Definition set_number_of_columns (self : t) (number_of_columns' : pyval) : t :=
  mk (index self) number_of_columns' (bipart_stats self).

Definition add_bipart_stats (self : t) (b : BiPartStats.t) : t :=
  mk (index self) (number_of_columns self) (bipart_stats self ++ [b]).

Definition iter (self : t) : list BiPartStats.t := bipart_stats self.

Definition to_dict (self : t) : pyval :=
  PDict [ (KEY_INDEX, index self);
          (KEY_NUMBER_OF_COLUMNS, number_of_columns self);
          (KEY_BIPART_STATS, PList (map BiPartStats.to_dict (iter self))) ].

Definition __len__ (self : t) : Z := Z.of_nat (List.length (bipart_stats self)).
Definition __getitem__ (self : t) (idx : Z) : indexed BiPartStats.t :=
  list_getitem (bipart_stats self) idx.

(** The instance methods of the class, and the state of [self] after a
    call.  A method that only reads returns, and leaves [self] as it was. *)
Inductive method : Type :=
| call_index
| call_number_of_columns
| call_set_number_of_columns (n : pyval)
| call_add_bipart_stats (b : BiPartStats.t)
| call___iter__
| call___len__
| call___getitem__ (idx : Z)
| call_to_dict
| call_to_yaml.

Definition run (self : t) (m : method) : t :=
  match m with
  | call_set_number_of_columns n => set_number_of_columns self n
  | call_add_bipart_stats b => add_bipart_stats self b
  | _ => self
  end.

End HCAStripStats.

Module HCAStripStatsCollection.

Definition t : Type := list HCAStripStats.t.

Definition from_dicts (strips_stats : pyval) : result t :=
  it <- py_iter strips_stats ;;
  mapM HCAStripStats.from_dict it.

Definition empty : t := [].
Definition append (self : t) (s : HCAStripStats.t) : t := self ++ [s].
Definition iter (self : t) : list HCAStripStats.t := self.

Definition to_dicts (self : t) : pyval :=
  PList (map HCAStripStats.to_dict (iter self)).

Definition __len__ (self : t) : Z := Z.of_nat (List.length self).
Definition __getitem__ (self : t) (index : Z) : indexed HCAStripStats.t :=
  list_getitem self index.

(** The instance methods of the class, and the state of [self] after a
    call.  A method that only reads returns, and leaves [self] as it was. *)
Inductive method : Type :=
| call_append (x : HCAStripStats.t)
| call___len__
| call___iter__
| call___getitem__ (index : Z)
| call_to_dicts
| call_to_yaml.

Definition run (self : t) (m : method) : t :=
  match m with
  | call_append x => append self x
  | _ => self
  end.

End HCAStripStatsCollection.

Module HCAProcessStats.

Definition KEY_LOW_QUALITY_PRESTRIPS_STATS : string := "low_quality_prestrips_stats".
Definition KEY_HIGH_QUALITY_PRESTRIPS_STATS : string := "high_quality_prestrips_stats".
Definition KEY_LOW_QUALITY_HCA_STRIP_STATS : string := "low_quality_hca_strip_stats".
Definition KEY_HIGH_QUALITY_HCA_STRIP_STATS : string := "high_quality_hca_strip_stats".

Record t : Type := mk {
  low_quality_prestrips_stats : HCAPreStripStatsCollection.t;
  high_quality_prestrips_stats : HCAPreStripStatsCollection.t;
  low_quality_hca_strip_stats : LowQualityHCAStripStatsCollection.t;
  high_quality_hca_strip_stats : HCAStripStatsCollection.t
}.

Definition from_dict (process_stats : pyval) : result t :=
  n1 <- getitem process_stats KEY_LOW_QUALITY_PRESTRIPS_STATS ;;
  c1 <- HCAPreStripStatsCollection.from_dicts n1 ;;
  n2 <- getitem process_stats KEY_HIGH_QUALITY_PRESTRIPS_STATS ;;
  c2 <- HCAPreStripStatsCollection.from_dicts n2 ;;
  n3 <- getitem process_stats KEY_LOW_QUALITY_HCA_STRIP_STATS ;;
  c3 <- LowQualityHCAStripStatsCollection.from_dicts n3 ;;
  n4 <- getitem process_stats KEY_HIGH_QUALITY_HCA_STRIP_STATS ;;
  c4 <- HCAStripStatsCollection.from_dicts n4 ;;
  Ok (mk c1 c2 c3 c4).

(** The bundle whose four collections are empty: the stage ran and
    produced nothing. *)
Definition empty : t :=
  mk HCAPreStripStatsCollection.empty HCAPreStripStatsCollection.empty
     LowQualityHCAStripStatsCollection.empty HCAStripStatsCollection.empty.

Definition to_dict (self : t) : pyval :=
  PDict [ (KEY_LOW_QUALITY_PRESTRIPS_STATS,
           HCAPreStripStatsCollection.to_dicts (low_quality_prestrips_stats self));
          (KEY_HIGH_QUALITY_PRESTRIPS_STATS,
           HCAPreStripStatsCollection.to_dicts (high_quality_prestrips_stats self));
          (KEY_LOW_QUALITY_HCA_STRIP_STATS,
           LowQualityHCAStripStatsCollection.to_dicts (low_quality_hca_strip_stats self));
          (KEY_HIGH_QUALITY_HCA_STRIP_STATS,
           HCAStripStatsCollection.to_dicts (high_quality_hca_strip_stats self)) ].

(** The instance methods of the class, and the state of [self] after a
    call.  A method that only reads returns, and leaves [self] as it was. *)
Inductive method : Type :=
| call_low_quality_prestrips_stats
| call_high_quality_prestrips_stats
| call_low_quality_hca_strip_stats
| call_high_quality_hca_strip_stats
| call_to_dict.

Definition run (self : t) (m : method) : t :=
  match m with
  | _ => self
  end.

End HCAProcessStats.

(** ** postprocess.py *)

Module PostProcessStats.

Definition KEY_NUMBER_OF_INITIAL_HAPLOTYPES : string := "number_of_initial_haplotypes".
Definition KEY_NUMBER_OF_LOW_QUALITY_HAPLOTYPES : string :=
  "number_of_low_quality_haplotypes".
Definition KEY_NUMBER_OF_FINAL_HAPLOTYPES : string := "number_of_final_haplotypes".

Record t : Type := mk {
  number_of_initial_haplotypes : pyval;
  number_of_low_quality_haplotypes : pyval;
  number_of_final_haplotypes : pyval
}.

Definition from_dict (d : pyval) : result t :=
  i <- getitem d KEY_NUMBER_OF_INITIAL_HAPLOTYPES ;;
  l <- getitem d KEY_NUMBER_OF_LOW_QUALITY_HAPLOTYPES ;;
  f <- getitem d KEY_NUMBER_OF_FINAL_HAPLOTYPES ;;
  Ok (mk i l f).

Definition to_dict (self : t) : pyval :=
  PDict [ (KEY_NUMBER_OF_INITIAL_HAPLOTYPES, number_of_initial_haplotypes self);
          (KEY_NUMBER_OF_LOW_QUALITY_HAPLOTYPES, number_of_low_quality_haplotypes self);
          (KEY_NUMBER_OF_FINAL_HAPLOTYPES, number_of_final_haplotypes self) ].

(** The instance methods of the class, and the state of [self] after a
    call.  A method that only reads returns, and leaves [self] as it was. *)
Inductive method : Type :=
| call_number_of_initial_haplotypes
| call_number_of_low_quality_haplotypes
| call_number_of_final_haplotypes
| call_to_dict.

Definition run (self : t) (m : method) : t :=
  match m with
  | _ => self
  end.

End PostProcessStats.

(** ** loci_window.py *)

Module LociWindowStats.

Definition KEY_START_POS : string := "start_pos".
Definition KEY_STOP_POS : string := "stop_pos".

Record t : Type := mk {
  start_pos : pyval;
  stop_pos : pyval
}.

Definition from_dict (dict_ : pyval) : result t :=
  a <- getitem dict_ KEY_START_POS ;;
  b <- getitem dict_ KEY_STOP_POS ;;
  Ok (mk a b).

Definition to_dict (self : t) : pyval :=
  PDict [ (KEY_START_POS, start_pos self);
          (KEY_STOP_POS, stop_pos self) ].

Definition from_loci_window_stats (loci_window_stats : t) : t :=
  mk (start_pos loci_window_stats) (stop_pos loci_window_stats).

(** The instance methods of the class, and the state of [self] after a
    call.  A method that only reads returns, and leaves [self] as it was. *)
Inductive method : Type :=
| call_start_pos
| call_stop_pos
| call_to_dict.

Definition run (self : t) (m : method) : t :=
  match m with
  | _ => self
  end.

End LociWindowStats.

Module LociWindowProcessStats.

Definition KEY_LOCI_WINDOW_STATS : string := "loci_window_stats".
Definition KEY_HCA_PROCESS_STATS : string := "hca_process_stats".
Definition KEY_QBC_PROCESS_STATS : string := "qbc_process_stats".
Definition KEY_POSTPROCESS_STATS : string := "postprocess_stats".

Record t : Type := mk {
  loci_window_stats : LociWindowStats.t;
  hca_process_stats : option HCAProcessStats.t;
  qbc_process_stats : option QBCProcessStats.t;
  postprocess_stats : option PostProcessStats.t
}.

(** [X.from_dict(d[k]) if d[k] is not None else None]: the condition is
    evaluated first, then [d[k]] once more for the call. *)
Definition optional {A : Type} (from : pyval -> result A) (d : pyval) (k : string)
  : result (option A) :=
  cond <- getitem d k ;;
  if is_None cond then Ok None
  else n <- getitem d k ;; x <- from n ;; Ok (Some x).

Definition from_dict (d : pyval) : result t :=
  wn <- getitem d KEY_LOCI_WINDOW_STATS ;;
  w <- LociWindowStats.from_dict wn ;;
  h <- optional HCAProcessStats.from_dict d KEY_HCA_PROCESS_STATS ;;
  q <- optional QBCProcessStats.from_dict d KEY_QBC_PROCESS_STATS ;;
  p <- optional PostProcessStats.from_dict d KEY_POSTPROCESS_STATS ;;
  Ok (mk w h q p).

(** [x.to_dict() if x is not None else None] *)
Definition optional_to_dict {A : Type} (to : A -> pyval) (x : option A) : pyval :=
  match x with
  | Some a => to a
  | None => PNone
  end.

Definition to_dict (self : t) : pyval :=
  PDict [ (KEY_LOCI_WINDOW_STATS, LociWindowStats.to_dict (loci_window_stats self));
          (KEY_HCA_PROCESS_STATS,
           optional_to_dict HCAProcessStats.to_dict (hca_process_stats self));
          (KEY_QBC_PROCESS_STATS,
           optional_to_dict QBCProcessStats.to_dict (qbc_process_stats self));
          (KEY_POSTPROCESS_STATS,
           optional_to_dict PostProcessStats.to_dict (postprocess_stats self)) ].

(** The instance methods of the class, and the state of [self] after a
    call.  A method that only reads returns, and leaves [self] as it was. *)
Inductive method : Type :=
| call_loci_window_stats
| call_hca_process_stats
| call_qbc_process_stats
| call_postprocess_stats
| call_to_dict.

Definition run (self : t) (m : method) : t :=
  match m with
  | _ => self
  end.

End LociWindowProcessStats.

Module LociWindowStatsCollection.

Definition t : Type := list LociWindowProcessStats.t.

Definition from_dicts (dicts : pyval) : result t :=
  it <- py_iter dicts ;;
  mapM LociWindowProcessStats.from_dict it.

Definition empty : t := [].
Definition append (self : t) (s : LociWindowProcessStats.t) : t := self ++ [s].
Definition extend (self : t) (ss : list LociWindowProcessStats.t) : t := self ++ ss.
Definition iter (self : t) : list LociWindowProcessStats.t := self.

Definition to_dicts (self : t) : pyval :=
  PList (map LociWindowProcessStats.to_dict self).

Definition __len__ (self : t) : Z := Z.of_nat (List.length self).
Definition __getitem__ (self : t) (index : Z) : indexed LociWindowProcessStats.t :=
  list_getitem self index.

(** The instance methods of the class, and the state of [self] after a
    call.  A method that only reads returns, and leaves [self] as it was. *)
Inductive method : Type :=
| call_append (x : LociWindowProcessStats.t)
| call_extend (xs : list LociWindowProcessStats.t)
| call___len__
| call___iter__
| call___getitem__ (index : Z)
| call_to_dicts.

Definition run (self : t) (m : method) : t :=
  match m with
  | call_append x => append self x
  | call_extend xs => extend self xs
  | _ => self
  end.

End LociWindowStatsCollection.

(** ** contig.py *)

Module ContigStats.

Definition KEY_CONTIG_NAME : string := "contig_name".
Definition KEY_CONTIG_LENGTH : string := "contig_length".

Record t : Type := mk {
  contig_name : pyval;
  contig_length : pyval
}.

Definition from_dict (d : pyval) : result t :=
  n <- getitem d KEY_CONTIG_NAME ;;
  l <- getitem d KEY_CONTIG_LENGTH ;;
  Ok (mk n l).

Definition to_dict (self : t) : pyval :=
  PDict [ (KEY_CONTIG_NAME, contig_name self);
          (KEY_CONTIG_LENGTH, contig_length self) ].

(** The instance methods of the class, and the state of [self] after a
    call.  A method that only reads returns, and leaves [self] as it was. *)
Inductive method : Type :=
| call_contig_name
| call_contig_length
| call_to_dict.

Definition run (self : t) (m : method) : t :=
  match m with
  | _ => self
  end.

End ContigStats.

Module ContigProcessStats.

Definition KEY_CONTIG_STATS : string := "contig_stats".
Definition KEY_LOCI_WINDOWS_STATS : string := "loci_windows_stats".

Record t : Type := mk {
  contig_stats : ContigStats.t;
  loci_windows_stats : LociWindowStatsCollection.t
}.

Definition from_dict (d : pyval) : result t :=
  cn <- getitem d KEY_CONTIG_STATS ;;
  c <- ContigStats.from_dict cn ;;
  wn <- getitem d KEY_LOCI_WINDOWS_STATS ;;
  w <- LociWindowStatsCollection.from_dicts wn ;;
  Ok (mk c w).

Definition to_dict (self : t) : pyval :=
  PDict [ (KEY_CONTIG_STATS, ContigStats.to_dict (contig_stats self));
          (KEY_LOCI_WINDOWS_STATS,
           LociWindowStatsCollection.to_dicts (loci_windows_stats self)) ].

(** The instance methods of the class, and the state of [self] after a
    call.  A method that only reads returns, and leaves [self] as it was. *)
Inductive method : Type :=
| call_contig_stats
| call_loci_windows_stats
| call_to_dict.

Definition run (self : t) (m : method) : t :=
  match m with
  | _ => self
  end.

End ContigProcessStats.

Module ContigProcessStatsCollection.

(** A subclass of [list]. *)
Definition t : Type := list ContigProcessStats.t.

Definition from_dicts (dicts : pyval) : result t :=
  it <- py_iter dicts ;;
  mapM ContigProcessStats.from_dict it.

Definition empty : t := [].
Definition append (self : t) (s : ContigProcessStats.t) : t := self ++ [s].
Definition extend (self : t) (ss : list ContigProcessStats.t) : t := self ++ ss.
Definition iter (self : t) : list ContigProcessStats.t := self.

Definition to_dicts (self : t) : pyval :=
  PList (map ContigProcessStats.to_dict self).

Definition __len__ (self : t) : Z := Z.of_nat (List.length self).
Definition __getitem__ (self : t) (index : Z) : indexed ContigProcessStats.t :=
  list_getitem self index.

(** The class defines [to_dicts] and [to_yaml] and inherits the methods of
    [list].  Of the inherited methods that change the list, [append],
    [extend], [insert], [pop], [clear] and [reverse] are modelled; [remove],
    [sort], item and slice assignment and deletion, [+=] and [*=] are not. *)
Inductive method : Type :=
| call_to_dicts
| call_to_yaml
| call___len__
| call___iter__
| call___getitem__ (index : Z)
| call_append (x : ContigProcessStats.t)
| call_extend (xs : list ContigProcessStats.t)
| call_insert (index : Z) (x : ContigProcessStats.t)
| call_pop (index : Z)
| call_clear
| call_reverse.

Definition run (self : t) (m : method) : t :=
  match m with
  | call_append x => append self x
  | call_extend xs => extend self xs
  | call_insert index x => list_insert self index x
  | call_pop index => list_pop self index
  | call_clear => []
  | call_reverse => rev self
  | _ => self
  end.

End ContigProcessStatsCollection.

(** * Vocabulary of the statements *)

Definition round_trips {A : Type} (to : A -> pyval) (from : pyval -> result A) : Prop :=
  forall x : A, from (to x) = Ok x.

(** A collection filled by [append], one element at a time, starting from
    the empty collection. *)
Definition built_by_append {A : Type} (append : list A -> A -> list A) (elems : list A)
  : list A :=
  fold_left append elems [].

(** The collection classes: their [append], their iteration and their
    conversions. *)
Record collection_ops (A : Type) : Type := mkOps {
  c_append : list A -> A -> list A;
  c_iter : list A -> list A;
  c_to_dicts : list A -> pyval;
  c_from_dicts : pyval -> result (list A)
}.
Arguments c_append {A}.
Arguments c_iter {A}.
Arguments c_to_dicts {A}.
Arguments c_from_dicts {A}.

(** After a round trip, iterating over a collection that was filled by
    appending a1 ... an visits a1 ... an, in this order. *)
Definition order_preserved {A : Type} (ops : collection_ops A) : Prop :=
  forall elems : list A,
    exists c',
      c_from_dicts ops (c_to_dicts ops (built_by_append (c_append ops) elems)) = Ok c' /\
      c_iter ops c' = elems.

Definition HCAPreStripStatsCollection_ops : collection_ops BinMatrixStats.t :=
  mkOps _ HCAPreStripStatsCollection.append HCAPreStripStatsCollection.iter
        HCAPreStripStatsCollection.to_dicts HCAPreStripStatsCollection.from_dicts.

Definition LowQualityHCAStripStatsCollection_ops
  : collection_ops LowQualityHCAStripStats.t :=
  mkOps _ LowQualityHCAStripStatsCollection.append LowQualityHCAStripStatsCollection.iter
        LowQualityHCAStripStatsCollection.to_dicts
        LowQualityHCAStripStatsCollection.from_dicts.

Definition HCAStripStatsCollection_ops : collection_ops HCAStripStats.t :=
  mkOps _ HCAStripStatsCollection.append HCAStripStatsCollection.iter
        HCAStripStatsCollection.to_dicts HCAStripStatsCollection.from_dicts.

Definition QBCStripStatsCollection_ops : collection_ops QBCStripStats.t :=
  mkOps _ QBCStripStatsCollection.append QBCStripStatsCollection.iter
        QBCStripStatsCollection.to_dicts QBCStripStatsCollection.from_dicts.

Definition LociWindowStatsCollection_ops : collection_ops LociWindowProcessStats.t :=
  mkOps _ LociWindowStatsCollection.append LociWindowStatsCollection.iter
        LociWindowStatsCollection.to_dicts LociWindowStatsCollection.from_dicts.

Definition ContigProcessStatsCollection_ops : collection_ops ContigProcessStats.t :=
  mkOps _ ContigProcessStatsCollection.append ContigProcessStatsCollection.iter
        ContigProcessStatsCollection.to_dicts ContigProcessStatsCollection.from_dicts.

(** *** Frames *)

(** All the cells of a frame, column after column. *)
Definition cells (df : DataFrame) : list cell := List.concat (columns df).

Definition count_cells (p : cell -> bool) (df : DataFrame) : Z :=
  Z.of_nat (List.length (filter p (cells df))).

(** The truth value of a cell of a boolean matrix, held as a boolean or as
    one of the integers 0 and 1. *)
Definition truth (c : cell) : option bool :=
  match c with
  | CBool b => Some b
  | CInt z => if z =? 1 then Some true else if z =? 0 then Some false else None
  | CFloat _ | CStr _ => None
  end.

Definition is_true (c : cell) : bool :=
  match truth c with Some true => true | _ => false end.

Definition boolean_frame (df : DataFrame) : Prop :=
  Forall (fun c => truth c <> None) (cells df).

Definition true_cells (df : DataFrame) : Z := count_cells is_true df.

(** A cell that compares equal to 1 or to 0. *)
Definition binary_cell (c : cell) : bool := cell_eq c 1 || cell_eq c 0.

Definition has_non_binary_cell (df : DataFrame) : Prop :=
  Exists (fun c => binary_cell c = false) (cells df).

(** [a / b] without rounding, for [b <> 0]. *)
Definition ratio (a b : Z) : pyfloat := FFin (Qred (inject_Z a / inject_Z b)).

(** The frame has no cell. *)
Definition empty_matrix (df : DataFrame) : Prop :=
  fst (shape df) * snd (shape df) = 0.

(** "The derived construction never divides by zero": no division of
    [from_bin_dataframe] sets a NumPy error flag. *)
Definition never_divides_by_zero : Prop :=
  forall df : DataFrame,
    DataFrame_wf df -> snd (BinMatrixStats.from_bin_dataframe df) = [].

(** A 4 x 3 boolean frame with 5 true cells. *)
Definition frame_4x3 : DataFrame :=
  mkDataFrame 4
    [ [CBool true; CBool false; CBool true; CBool false];
      [CBool false; CBool true; CBool false; CBool false];
      [CBool true; CBool false; CBool false; CBool true] ].

(** A frame with one column and no row. *)
Definition frame_no_rows : DataFrame := mkDataFrame 0 [ [] ].

(** A 2 x 2 frame of integers with one cell that is neither 0 nor 1. *)
Definition frame_with_a_two : DataFrame :=
  mkDataFrame 2 [ [CInt 1; CInt 2]; [CInt 0; CInt 1] ].

(** *** Contig nodes with a missing key

    [first_missing items k]: [k] is the first key that the decoding of the
    contig node [PDict items] looks up and does not find, the look-ups being
    made in the order contig_stats, contig_name, contig_length,
    loci_windows_stats. *)
Inductive first_missing (items : list (string * pyval)) : string -> Prop :=
| missing_contig_stats :
    dict_lookup items ContigProcessStats.KEY_CONTIG_STATS = None ->
    first_missing items ContigProcessStats.KEY_CONTIG_STATS
| missing_contig_name (cs : list (string * pyval)) :
    dict_lookup items ContigProcessStats.KEY_CONTIG_STATS = Some (PDict cs) ->
    dict_lookup cs ContigStats.KEY_CONTIG_NAME = None ->
    first_missing items ContigStats.KEY_CONTIG_NAME
| missing_contig_length (cs : list (string * pyval)) (name : pyval) :
    dict_lookup items ContigProcessStats.KEY_CONTIG_STATS = Some (PDict cs) ->
    dict_lookup cs ContigStats.KEY_CONTIG_NAME = Some name ->
    dict_lookup cs ContigStats.KEY_CONTIG_LENGTH = None ->
    first_missing items ContigStats.KEY_CONTIG_LENGTH
| missing_loci_windows_stats (cs : list (string * pyval)) (name len : pyval) :
    dict_lookup items ContigProcessStats.KEY_CONTIG_STATS = Some (PDict cs) ->
    dict_lookup cs ContigStats.KEY_CONTIG_NAME = Some name ->
    dict_lookup cs ContigStats.KEY_CONTIG_LENGTH = Some len ->
    dict_lookup items ContigProcessStats.KEY_LOCI_WINDOWS_STATS = None ->
    first_missing items ContigProcessStats.KEY_LOCI_WINDOWS_STATS.

(** The key is one of those of the contig statistics, which are read before
    the windows. *)
Definition read_before_windows (k : string) : Prop :=
  k = ContigProcessStats.KEY_CONTIG_STATS \/
  k = ContigStats.KEY_CONTIG_NAME \/
  k = ContigStats.KEY_CONTIG_LENGTH.

(** [items] with the value under [k] replaced by [v] (or [k] added). *)
Fixpoint dict_set (items : list (string * pyval)) (k : string) (v : pyval)
  : list (string * pyval) :=
  match items with
  | [] => [(k, v)]
  | (k', v') :: rest =>
      if String.eqb k' k then (k', v) :: rest else (k', v') :: dict_set rest k v
  end.

(** *** Changes after construction *)





(** [keys] is in alphabetical order. *)
Fixpoint alphabetical (keys : list string) : bool :=
  match keys with
  | k1 :: ((k2 :: _) as rest) => String.leb k1 k2 && alphabetical rest
  | _ => true
  end.

(** *** Decoding nodes of the wrong shape, with missing or unknown keys *)

Definition is_mapping (v : pyval) : bool :=
  match v with PDict _ => true | _ => false end.

(** A decoder that raises [TypeError] on every node that is not a mapping. *)
Definition rejects_non_mapping {A : Type} (from_dict : pyval -> result A) : Prop :=
  forall v : pyval, is_mapping v = false -> from_dict v = Err TypeError.

(** What a [from_dicts] does with a node that is not a non-empty list. *)
Definition from_dicts_on_odd_nodes {A : Type} (from_dicts : pyval -> result (list A))
  : Prop :=
  from_dicts PNone = Err TypeError /\
  (forall b, from_dicts (PBool b) = Err TypeError) /\
  (forall z, from_dicts (PInt z) = Err TypeError) /\
  (forall f, from_dicts (PFloat f) = Err TypeError) /\
  from_dicts (PList []) = Ok [] /\
  from_dicts (PDict []) = Ok [] /\
  from_dicts (PStr EmptyString) = Ok [] /\
  (forall kv items, from_dicts (PDict (kv :: items)) = Err TypeError) /\
  (forall c s, from_dicts (PStr (String c s)) = Err TypeError).

(** The first of [keys] that the mapping [items] does not have. *)
Definition first_absent (keys : list string) (items : list (string * pyval))
  : option string :=
  find (fun k => match dict_lookup items k with Some _ => false | None => true end) keys.

(** A decoder of flat records: on a mapping it succeeds when all of [keys]
    are there and otherwise raises [KeyError] for the first one missing. *)
Definition requires_keys {A : Type} (keys : list string) (from_dict : pyval -> result A)
  : Prop :=
  forall items : list (string * pyval),
    match first_absent keys items with
    | Some k => from_dict (PDict items) = Err (KeyError k)
    | None => exists x, from_dict (PDict items) = Ok x
    end.

(** A decoder whose result on a mapping depends on the values under [keys]
    alone. *)
Definition reads_only {A : Type} (keys : list string) (from_dict : pyval -> result A)
  : Prop :=
  forall d1 d2 : list (string * pyval),
    (forall k, In k keys -> dict_lookup d1 k = dict_lookup d2 k) ->
    from_dict (PDict d1) = from_dict (PDict d2).

(** The order of the items of a mapping with distinct keys does not matter
    to the decoder, and neither does an item whose key is not one of
    [keys]. *)
Definition order_and_unknown_keys_irrelevant {A : Type} (keys : list string)
           (from_dict : pyval -> result A) : Prop :=
  (forall d1 d2 : list (string * pyval),
     NoDup (map fst d1) -> Permutation d1 d2 ->
     from_dict (PDict d1) = from_dict (PDict d2)) /\
  (forall (items : list (string * pyval)) (k : string) (v : pyval),
     ~ In k keys ->
     from_dict (PDict ((k, v) :: items)) = from_dict (PDict items) /\
     from_dict (PDict (items ++ [(k, v)])) = from_dict (PDict items)).


(** *** Sequences *)

(** What [len], indexing and [append] of a list-like class satisfy. *)
Definition sequence_laws {A : Type} (len : list A -> Z)
           (getitem_ : list A -> Z -> indexed A) (append : list A -> A -> list A)
  : Prop :=
  (forall s x, len (append s x) = len s + 1) /\
  (forall s x, getitem_ (append s x) (len s) = Item x) /\
  (forall s x, getitem_ (append s x) (-1) = Item x) /\
  (forall s x i, 0 <= i < len s -> getitem_ (append s x) i = getitem_ s i) /\
  (forall s i, - len s <= i < 0 -> getitem_ s i = getitem_ s (len s + i)) /\
  (forall s i, getitem_ s i = IndexError <-> (i < - len s \/ len s <= i)).

Definition all_binary (df : DataFrame) : Prop :=
  Forall (fun c => binary_cell c = true) (cells df).

Definition injective {A : Type} (to : A -> pyval) : Prop :=
  forall x y : A, to x = to y -> x = y.

(** A decoder that gives back, through [to], every mapping that has
    exactly [keys], in this order. *)
Definition reencodes {A : Type} (keys : list string) (to : A -> pyval)
           (from : pyval -> result A) : Prop :=
  forall (items : list (string * pyval)) (x : A),
    map fst items = keys -> from (PDict items) = Ok x -> to x = PDict items.

(** *** Records of the scenarios *)

Definition matrix_2x3 : BinMatrixStats.t :=
  BinMatrixStats.mk (PInt 2) (PInt 3) (PInt 4) (PInt 2)
    (PFloat (FFin (2 # 3))) (PFloat (FFin (1 # 3))).

Definition strip_with_two_biparts : QBCStripStats.t :=
  QBCStripStats.mk (PInt 0) (PInt 3)
    [ BiPartStats.mk (PInt 0) BiPartClass.ZERO matrix_2x3;
      BiPartStats.mk (PInt 1) BiPartClass.ONE matrix_2x3 ]
    [ UnassignedReadStats.mk (PStr "read_17") (PInt 1) (PInt 2) ].

Definition window_at (start stop : Z) : LociWindowProcessStats.t :=
  LociWindowProcessStats.mk (LociWindowStats.mk (PInt start) (PInt stop))
    (Some HCAProcessStats.empty) None None.

(** * Properties *)

(** ** The error monad and list conversion *)

Ltac split_all := repeat match goal with |- _ /\ _ => split end.


Section ListConversion.
Context {A : Type}.
Variable to : A -> pyval.
Variable from : pyval -> result A.
Hypothesis to_from : round_trips to from.

Lemma mapM_map_round_trip (l : list A) : mapM from (map to l) = Ok l.
Proof.
  induction l as [|x l IH]; [reflexivity|].
  cbn [map mapM]. rewrite to_from. cbn [bind]. rewrite IH. reflexivity.
Qed.

Lemma from_dicts_round_trip (l : list A) :
  (it <- py_iter (PList (map to l)) ;; mapM from it) = Ok l.
Proof. cbn [py_iter bind]. apply mapM_map_round_trip. Qed.
End ListConversion.

Lemma fold_append_is_list {A : Type} (l acc : list A) :
  fold_left (fun self x => self ++ [x]) l acc = acc ++ l.
Proof.
  revert acc. induction l as [|x l IH]; intros acc; cbn [fold_left].
  - now rewrite app_nil_r.
  - rewrite IH, <- app_assoc. reflexivity.
Qed.

(** A failing element makes the whole list conversion fail, and when the
    elements before it convert, with its own exception. *)
Lemma mapM_err_at {A B : Type} (f : A -> result B) (pre post : list A) (x : A) (e : exn) :
  f x = Err e ->
  is_ok (mapM f (pre ++ x :: post)) = false /\
  (is_ok (mapM f pre) = true -> mapM f (pre ++ x :: post) = Err e).
Proof.
  intros Hx. induction pre as [|p pre [IH1 IH2]]; cbn [app mapM].
  - rewrite Hx. cbn [bind is_ok]. split; reflexivity.
  - destruct (f p) as [y|e']; cbn [bind is_ok]; [|split; [reflexivity|discriminate]].
    destruct (mapM f (pre ++ x :: post)) as [ys|e'']; [discriminate IH1|].
    cbn [bind is_ok]. split; [reflexivity|].
    destruct (mapM f pre) as [zs|e3]; cbn [bind is_ok]; [|discriminate].
    intros _. now rewrite (IH2 eq_refl).
Qed.

(** ** Round trips, record by record *)

Lemma BinMatrixStats_round_trip :
  round_trips BinMatrixStats.to_dict BinMatrixStats.from_dict.
Proof. intros []. reflexivity. Qed.

Lemma BiPartClass_of_value_value (c : BiPartClass.t) :
  BiPartClass.of_value (PInt (BiPartClass.value c)) = Ok c.
Proof. destruct c; reflexivity. Qed.

Lemma BiPartStats_round_trip :
  round_trips BiPartStats.to_dict BiPartStats.from_dict.
Proof.
  intros [i c b]. unfold BiPartStats.from_dict, BiPartStats.to_dict.
  cbn -[BinMatrixStats.from_dict BinMatrixStats.to_dict BiPartClass.of_value].
  rewrite BiPartClass_of_value_value. cbn [bind].
  rewrite BinMatrixStats_round_trip. reflexivity.
Qed.

Lemma UnassignedReadStats_round_trip :
  round_trips UnassignedReadStats.to_dict UnassignedReadStats.from_dict.
Proof. intros []. reflexivity. Qed.

Lemma QBCStripStats_round_trip :
  round_trips QBCStripStats.to_dict QBCStripStats.from_dict.
Proof.
  intros [i n bs us]. unfold QBCStripStats.from_dict, QBCStripStats.to_dict.
  cbn -[BiPartStats.from_dict BiPartStats.to_dict
        UnassignedReadStats.from_dict UnassignedReadStats.to_dict].
  rewrite (mapM_map_round_trip _ _ BiPartStats_round_trip). cbn [bind].
  rewrite (mapM_map_round_trip _ _ UnassignedReadStats_round_trip). reflexivity.
Qed.

Lemma QBCTrashStripStats_round_trip :
  round_trips QBCTrashStripStats.to_dict QBCTrashStripStats.from_dict.
Proof.
  intros [i m]. unfold QBCTrashStripStats.from_dict, QBCTrashStripStats.to_dict.
  cbn -[BinMatrixStats.from_dict BinMatrixStats.to_dict].
  rewrite BinMatrixStats_round_trip. reflexivity.
Qed.

Lemma QBCStripStatsCollection_round_trip :
  round_trips QBCStripStatsCollection.to_dicts QBCStripStatsCollection.from_dicts.
Proof. intros l. apply (from_dicts_round_trip _ _ QBCStripStats_round_trip). Qed.

Lemma QBCTrashStripStats_to_dict_not_None (x : QBCTrashStripStats.t) :
  is_None (QBCTrashStripStats.to_dict x) = false.
Proof. reflexivity. Qed.

Lemma QBCProcessStats_round_trip :
  round_trips QBCProcessStats.to_dict QBCProcessStats.from_dict.
Proof.
  intros [h tr]. unfold QBCProcessStats.from_dict, QBCProcessStats.to_dict.
  cbn -[QBCStripStatsCollection.from_dicts QBCStripStatsCollection.to_dicts
        QBCTrashStripStats.from_dict QBCTrashStripStats.to_dict is_None].
  rewrite QBCStripStatsCollection_round_trip. cbn [bind].
  destruct tr as [x|].
  - rewrite QBCTrashStripStats_to_dict_not_None, QBCTrashStripStats_round_trip.
    reflexivity.
  - reflexivity.
Qed.

Lemma HCAPreStripStatsCollection_round_trip :
  round_trips HCAPreStripStatsCollection.to_dicts HCAPreStripStatsCollection.from_dicts.
Proof. intros l. apply (from_dicts_round_trip _ _ BinMatrixStats_round_trip). Qed.

Lemma LowQualityHCAStripStats_round_trip :
  round_trips LowQualityHCAStripStats.to_dict LowQualityHCAStripStats.from_dict.
Proof.
  intros [s n bs].
  unfold LowQualityHCAStripStats.from_dict, LowQualityHCAStripStats.to_dict.
  cbn -[BinMatrixStats.from_dict BinMatrixStats.to_dict].
  rewrite (mapM_map_round_trip _ _ BinMatrixStats_round_trip). reflexivity.
Qed.

Lemma LowQualityHCAStripStatsCollection_round_trip :
  round_trips LowQualityHCAStripStatsCollection.to_dicts
              LowQualityHCAStripStatsCollection.from_dicts.
Proof. intros l. apply (from_dicts_round_trip _ _ LowQualityHCAStripStats_round_trip). Qed.

Lemma HCAStripStats_round_trip :
  round_trips HCAStripStats.to_dict HCAStripStats.from_dict.
Proof.
  intros [i n bs]. unfold HCAStripStats.from_dict, HCAStripStats.to_dict.
  cbn -[BiPartStats.from_dict BiPartStats.to_dict].
  rewrite (mapM_map_round_trip _ _ BiPartStats_round_trip). reflexivity.
Qed.

Lemma HCAStripStatsCollection_round_trip :
  round_trips HCAStripStatsCollection.to_dicts HCAStripStatsCollection.from_dicts.
Proof. intros l. apply (from_dicts_round_trip _ _ HCAStripStats_round_trip). Qed.

Lemma HCAProcessStats_round_trip :
  round_trips HCAProcessStats.to_dict HCAProcessStats.from_dict.
Proof.
  intros [c1 c2 c3 c4]. unfold HCAProcessStats.from_dict, HCAProcessStats.to_dict.
  cbn -[HCAPreStripStatsCollection.from_dicts HCAPreStripStatsCollection.to_dicts
        LowQualityHCAStripStatsCollection.from_dicts
        LowQualityHCAStripStatsCollection.to_dicts
        HCAStripStatsCollection.from_dicts HCAStripStatsCollection.to_dicts].
  rewrite !HCAPreStripStatsCollection_round_trip,
    LowQualityHCAStripStatsCollection_round_trip,
    HCAStripStatsCollection_round_trip.
  reflexivity.
Qed.

Lemma PostProcessStats_round_trip :
  round_trips PostProcessStats.to_dict PostProcessStats.from_dict.
Proof. intros []. reflexivity. Qed.

Lemma LociWindowStats_round_trip :
  round_trips LociWindowStats.to_dict LociWindowStats.from_dict.
Proof. intros []. reflexivity. Qed.

Section Optional.
Context {A : Type}.
Variable to : A -> pyval.
Variable from : pyval -> result A.
Hypothesis to_from : round_trips to from.
Hypothesis to_not_None : forall a, is_None (to a) = false.

(** Decoding the value written for an optional attribute gives the
    attribute back, whatever else the mapping holds before it. *)
Lemma optional_round_trip (k : string) (x : option A) (d : pyval) :
  getitem d k = Ok (LociWindowProcessStats.optional_to_dict to x) ->
  LociWindowProcessStats.optional from d k = Ok x.
Proof.
  intros Hk. unfold LociWindowProcessStats.optional. rewrite Hk. cbn [bind].
  destruct x as [a|]; cbn [LociWindowProcessStats.optional_to_dict is_None].
  - rewrite to_not_None, to_from. reflexivity.
  - reflexivity.
Qed.
End Optional.

Lemma HCAProcessStats_to_dict_not_None (x : HCAProcessStats.t) :
  is_None (HCAProcessStats.to_dict x) = false.
Proof. reflexivity. Qed.

Lemma QBCProcessStats_to_dict_not_None (x : QBCProcessStats.t) :
  is_None (QBCProcessStats.to_dict x) = false.
Proof. reflexivity. Qed.

Lemma PostProcessStats_to_dict_not_None (x : PostProcessStats.t) :
  is_None (PostProcessStats.to_dict x) = false.
Proof. reflexivity. Qed.

Lemma LociWindowProcessStats_round_trip :
  round_trips LociWindowProcessStats.to_dict LociWindowProcessStats.from_dict.
Proof.
  intros [w h q p]. unfold LociWindowProcessStats.from_dict.
  rewrite (optional_round_trip _ _ HCAProcessStats_round_trip
             HCAProcessStats_to_dict_not_None _ h) by reflexivity.
  rewrite (optional_round_trip _ _ QBCProcessStats_round_trip
             QBCProcessStats_to_dict_not_None _ q) by reflexivity.
  rewrite (optional_round_trip _ _ PostProcessStats_round_trip
             PostProcessStats_to_dict_not_None _ p) by reflexivity.
  unfold LociWindowProcessStats.to_dict.
  cbn -[LociWindowStats.from_dict LociWindowStats.to_dict
        LociWindowProcessStats.optional_to_dict].
  rewrite LociWindowStats_round_trip. reflexivity.
Qed.

Lemma LociWindowStatsCollection_round_trip :
  round_trips LociWindowStatsCollection.to_dicts LociWindowStatsCollection.from_dicts.
Proof. intros l. apply (from_dicts_round_trip _ _ LociWindowProcessStats_round_trip). Qed.

Lemma ContigStats_round_trip :
  round_trips ContigStats.to_dict ContigStats.from_dict.
Proof. intros []. reflexivity. Qed.

Lemma ContigProcessStats_round_trip :
  round_trips ContigProcessStats.to_dict ContigProcessStats.from_dict.
Proof.
  intros [c w]. unfold ContigProcessStats.from_dict, ContigProcessStats.to_dict.
  cbn -[ContigStats.from_dict ContigStats.to_dict
        LociWindowStatsCollection.from_dicts LociWindowStatsCollection.to_dicts].
  rewrite ContigStats_round_trip, LociWindowStatsCollection_round_trip. reflexivity.
Qed.

Lemma ContigProcessStatsCollection_round_trip :
  round_trips ContigProcessStatsCollection.to_dicts
              ContigProcessStatsCollection.from_dicts.
Proof. intros l. apply (from_dicts_round_trip _ _ ContigProcessStats_round_trip). Qed.


Lemma order_preserved_intro {A : Type} (ops : collection_ops A) :
  c_append ops = (fun self x => self ++ [x]) ->
  c_iter ops = (fun self => self) ->
  round_trips (c_to_dicts ops) (c_from_dicts ops) ->
  order_preserved ops.
Proof.
  intros Happ Hiter Hrt elems. exists elems.
  unfold built_by_append. rewrite Happ, Hiter, fold_append_is_list, Hrt.
  split; reflexivity.
Qed.

(** C1. Decoding the encoding of a record gives the record back, for every
    record class and every collection class: [from_dict (to_dict x)]
    (respectively [from_dicts (to_dicts x)]) returns [x] itself, so every
    attribute is equal and every list holds the same elements in the same
    order, none dropped, merged or moved.  For the collection classes,
    a collection filled by appending a1 ... an is iterated as a1 ... an after
    the round trip. *)
Theorem round_trip_all_records :
  round_trips BinMatrixStats.to_dict BinMatrixStats.from_dict /\
  round_trips BiPartStats.to_dict BiPartStats.from_dict /\
  round_trips UnassignedReadStats.to_dict UnassignedReadStats.from_dict /\
  round_trips HCAPreStripStatsCollection.to_dicts HCAPreStripStatsCollection.from_dicts /\
  round_trips LowQualityHCAStripStats.to_dict LowQualityHCAStripStats.from_dict /\
  round_trips LowQualityHCAStripStatsCollection.to_dicts
              LowQualityHCAStripStatsCollection.from_dicts /\
  round_trips HCAStripStats.to_dict HCAStripStats.from_dict /\
  round_trips HCAStripStatsCollection.to_dicts HCAStripStatsCollection.from_dicts /\
  round_trips HCAProcessStats.to_dict HCAProcessStats.from_dict /\
  round_trips QBCStripStats.to_dict QBCStripStats.from_dict /\
  round_trips QBCTrashStripStats.to_dict QBCTrashStripStats.from_dict /\
  round_trips QBCStripStatsCollection.to_dicts QBCStripStatsCollection.from_dicts /\
  round_trips QBCProcessStats.to_dict QBCProcessStats.from_dict /\
  round_trips PostProcessStats.to_dict PostProcessStats.from_dict /\
  round_trips LociWindowStats.to_dict LociWindowStats.from_dict /\
  round_trips LociWindowProcessStats.to_dict LociWindowProcessStats.from_dict /\
  round_trips LociWindowStatsCollection.to_dicts LociWindowStatsCollection.from_dicts /\
  round_trips ContigStats.to_dict ContigStats.from_dict /\
  round_trips ContigProcessStats.to_dict ContigProcessStats.from_dict /\
  round_trips ContigProcessStatsCollection.to_dicts
              ContigProcessStatsCollection.from_dicts /\
  order_preserved HCAPreStripStatsCollection_ops /\
  order_preserved LowQualityHCAStripStatsCollection_ops /\
  order_preserved HCAStripStatsCollection_ops /\
  order_preserved QBCStripStatsCollection_ops /\
  order_preserved LociWindowStatsCollection_ops /\
  order_preserved ContigProcessStatsCollection_ops.
Proof.
  repeat split;
    first
      [ apply BinMatrixStats_round_trip
      | apply BiPartStats_round_trip
      | apply UnassignedReadStats_round_trip
      | apply HCAPreStripStatsCollection_round_trip
      | apply LowQualityHCAStripStats_round_trip
      | apply LowQualityHCAStripStatsCollection_round_trip
      | apply HCAStripStats_round_trip
      | apply HCAStripStatsCollection_round_trip
      | apply HCAProcessStats_round_trip
      | apply QBCStripStats_round_trip
      | apply QBCTrashStripStats_round_trip
      | apply QBCStripStatsCollection_round_trip
      | apply QBCProcessStats_round_trip
      | apply PostProcessStats_round_trip
      | apply LociWindowStats_round_trip
      | apply LociWindowProcessStats_round_trip
      | apply LociWindowStatsCollection_round_trip
      | apply ContigStats_round_trip
      | apply ContigProcessStats_round_trip
      | apply ContigProcessStatsCollection_round_trip
      | apply order_preserved_intro; cbn [c_append c_iter c_to_dicts c_from_dicts
            HCAPreStripStatsCollection_ops LowQualityHCAStripStatsCollection_ops
            HCAStripStatsCollection_ops QBCStripStatsCollection_ops
            LociWindowStatsCollection_ops ContigProcessStatsCollection_ops];
        first
          [ reflexivity
          | apply HCAPreStripStatsCollection_round_trip
          | apply LowQualityHCAStripStatsCollection_round_trip
          | apply HCAStripStatsCollection_round_trip
          | apply QBCStripStatsCollection_round_trip
          | apply LociWindowStatsCollection_round_trip
          | apply ContigProcessStatsCollection_round_trip ] ].
Qed.

(** ** Optional stages of a window *)

Lemma optional_None_iff {A : Type} (from : pyval -> result A) (d : pyval) (k : string)
      (o : option A) :
  LociWindowProcessStats.optional from d k = Ok o ->
  (o = None <-> getitem d k = Ok PNone).
Proof.
  unfold LociWindowProcessStats.optional.
  destruct (getitem d k) as [v|e] eqn:Hk; cbn [bind]; [|discriminate].
  destruct (is_None v) eqn:Hv.
  - intros [= <-]. destruct v; try discriminate Hv. split; reflexivity.
  - cbn [bind].
    destruct (from v) as [x|e]; cbn [bind]; [|discriminate].
    intros [= <-]. split; [discriminate|].
    intros [= ->]. discriminate Hv.
Qed.

Lemma from_dict_stages (d : pyval) (y : LociWindowProcessStats.t) :
  LociWindowProcessStats.from_dict d = Ok y ->
  LociWindowProcessStats.optional HCAProcessStats.from_dict d
    LociWindowProcessStats.KEY_HCA_PROCESS_STATS
    = Ok (LociWindowProcessStats.hca_process_stats y) /\
  LociWindowProcessStats.optional QBCProcessStats.from_dict d
    LociWindowProcessStats.KEY_QBC_PROCESS_STATS
    = Ok (LociWindowProcessStats.qbc_process_stats y) /\
  LociWindowProcessStats.optional PostProcessStats.from_dict d
    LociWindowProcessStats.KEY_POSTPROCESS_STATS
    = Ok (LociWindowProcessStats.postprocess_stats y).
Proof.
  unfold LociWindowProcessStats.from_dict.
  destruct (getitem d _) as [wn|?]; cbn [bind]; [|discriminate].
  destruct (LociWindowStats.from_dict wn) as [w|?]; cbn [bind]; [|discriminate].
  destruct (LociWindowProcessStats.optional HCAProcessStats.from_dict _ _) as [h|?];
    cbn [bind]; [|discriminate].
  destruct (LociWindowProcessStats.optional QBCProcessStats.from_dict _ _) as [q|?];
    cbn [bind]; [|discriminate].
  destruct (LociWindowProcessStats.optional PostProcessStats.from_dict _ _) as [p|?];
    cbn [bind]; [|discriminate].
  intros [= <-]. repeat split.
Qed.

(** C2. The three optional stage attributes of a window keep the distinction
    between absent, empty and populated through [to_dict] and [from_dict].
    Writing: the mapping always has the four keys; under a stage key stands
    None exactly when the attribute is None, otherwise the mapping of the
    bundle, which is never None; the empty bundles are written as mappings
    of empty sequences.  Reading back: every combination of the three
    attributes (each one absent, empty or populated, independently of the
    other two) is returned as it was.  Reading any mapping: an attribute is
    None in the result exactly when None stands under its key. *)
Theorem optional_stages_three_way :
  (forall x : LociWindowProcessStats.t,
     dict_keys (LociWindowProcessStats.to_dict x)
       = ["loci_window_stats"; "hca_process_stats"; "qbc_process_stats";
          "postprocess_stats"]%string /\
     getitem (LociWindowProcessStats.to_dict x) "hca_process_stats"
       = Ok (match LociWindowProcessStats.hca_process_stats x with
             | Some b => HCAProcessStats.to_dict b
             | None => PNone
             end) /\
     getitem (LociWindowProcessStats.to_dict x) "qbc_process_stats"
       = Ok (match LociWindowProcessStats.qbc_process_stats x with
             | Some b => QBCProcessStats.to_dict b
             | None => PNone
             end) /\
     getitem (LociWindowProcessStats.to_dict x) "postprocess_stats"
       = Ok (match LociWindowProcessStats.postprocess_stats x with
             | Some b => PostProcessStats.to_dict b
             | None => PNone
             end)) /\
  (forall b, HCAProcessStats.to_dict b <> PNone) /\
  (forall b, QBCProcessStats.to_dict b <> PNone) /\
  (forall b, PostProcessStats.to_dict b <> PNone) /\
  HCAProcessStats.to_dict HCAProcessStats.empty
    = PDict [ ("low_quality_prestrips_stats", PList []);
              ("high_quality_prestrips_stats", PList []);
              ("low_quality_hca_strip_stats", PList []);
              ("high_quality_hca_strip_stats", PList []) ]%string /\
  QBCProcessStats.to_dict (QBCProcessStats.mk QBCStripStatsCollection.empty None)
    = PDict [ ("high_quality_strips_stats", PList []);
              ("trash_strip_stats", PNone) ]%string /\
  (forall (w : LociWindowStats.t) (h : option HCAProcessStats.t)
          (q : option QBCProcessStats.t) (p : option PostProcessStats.t),
     LociWindowProcessStats.from_dict
       (LociWindowProcessStats.to_dict (LociWindowProcessStats.mk w h q p))
     = Ok (LociWindowProcessStats.mk w h q p)) /\
  (forall (d : pyval) (y : LociWindowProcessStats.t),
     LociWindowProcessStats.from_dict d = Ok y ->
     (LociWindowProcessStats.hca_process_stats y = None
        <-> getitem d "hca_process_stats" = Ok PNone) /\
     (LociWindowProcessStats.qbc_process_stats y = None
        <-> getitem d "qbc_process_stats" = Ok PNone) /\
     (LociWindowProcessStats.postprocess_stats y = None
        <-> getitem d "postprocess_stats" = Ok PNone)).
Proof.
  split; [|split; [|split; [|split; [|split; [|split; [|split]]]]]].
  - intros [w [h|] [q|] [p|]]; repeat split.
  - intros b; discriminate.
  - intros b; discriminate.
  - intros b; discriminate.
  - reflexivity.
  - reflexivity.
  - intros w h q p. apply LociWindowProcessStats_round_trip.
  - intros d y Hy. destruct (from_dict_stages d y Hy) as (Hh & Hq & Hp).
    split; [|split].
    + exact (optional_None_iff _ _ _ _ Hh).
    + exact (optional_None_iff _ _ _ _ Hq).
    + exact (optional_None_iff _ _ _ _ Hp).
Qed.

(** The window of scenario 2: no stage ran. *)
Lemma optional_stages_three_way_witness :
  let x := LociWindowProcessStats.mk (LociWindowStats.mk (PInt 0) (PInt 10))
             None None None in
  LociWindowProcessStats.to_dict x
    = PDict [ ("loci_window_stats",
               PDict [("start_pos", PInt 0); ("stop_pos", PInt 10)]);
              ("hca_process_stats", PNone);
              ("qbc_process_stats", PNone);
              ("postprocess_stats", PNone) ]%string /\
  LociWindowProcessStats.hca_process_stats x = None /\
  LociWindowProcessStats.qbc_process_stats x = None /\
  LociWindowProcessStats.postprocess_stats x = None.
Proof.
  intros x. split; [reflexivity|].
  destruct optional_stages_three_way as (_ & _ & _ & _ & _ & _ & Hrt & Hdec).
  destruct (Hdec (LociWindowProcessStats.to_dict x) x (Hrt _ _ _ _)) as (Hh & Hq & Hp).
  split; [apply Hh; reflexivity|split; [apply Hq; reflexivity|apply Hp; reflexivity]].
Defined.

(** ** Key order *)

(** C6. The mapping that [to_dict] builds lists its keys in the order in
    which the interface declares them, which is the order of insertion, for
    every record class; for the two classes named in the claim this order is
    not the alphabetical one. *)
Theorem to_dict_key_order :
  (forall x, dict_keys (BinMatrixStats.to_dict x)
     = ["number_of_rows"; "number_of_columns"; "number_of_ones"; "number_of_zeros";
        "density"; "sparsity"]%string) /\
  (forall x, dict_keys (BiPartStats.to_dict x)
     = ["index"; "class"; "binmatrix_stats"]%string) /\
  (forall x, dict_keys (UnassignedReadStats.to_dict x)
     = ["read_id"; "number_of_ones"; "number_of_zeros"]%string) /\
  (forall x, dict_keys (LowQualityHCAStripStats.to_dict x)
     = ["strip_number"; "number_of_columns"; "bin_matrices_stats"]%string) /\
  (forall x, dict_keys (HCAStripStats.to_dict x)
     = ["index"; "number_of_columns"; "bipart_stats"]%string) /\
  (forall x, dict_keys (HCAProcessStats.to_dict x)
     = ["low_quality_prestrips_stats"; "high_quality_prestrips_stats";
        "low_quality_hca_strip_stats"; "high_quality_hca_strip_stats"]%string) /\
  (forall x, dict_keys (QBCStripStats.to_dict x)
     = ["index"; "number_of_columns"; "bipart_stats"; "unassigned_reads"]%string) /\
  (forall x, dict_keys (QBCTrashStripStats.to_dict x)
     = ["index"; "matrix_stats"]%string) /\
  (forall x, dict_keys (QBCProcessStats.to_dict x)
     = ["high_quality_strips_stats"; "trash_strip_stats"]%string) /\
  (forall x, dict_keys (PostProcessStats.to_dict x)
     = ["number_of_initial_haplotypes"; "number_of_low_quality_haplotypes";
        "number_of_final_haplotypes"]%string) /\
  (forall x, dict_keys (LociWindowStats.to_dict x)
     = ["start_pos"; "stop_pos"]%string) /\
  (forall x, dict_keys (LociWindowProcessStats.to_dict x)
     = ["loci_window_stats"; "hca_process_stats"; "qbc_process_stats";
        "postprocess_stats"]%string) /\
  (forall x, dict_keys (ContigStats.to_dict x)
     = ["contig_name"; "contig_length"]%string) /\
  (forall x, dict_keys (ContigProcessStats.to_dict x)
     = ["contig_stats"; "loci_windows_stats"]%string) /\
  (forall x, alphabetical (dict_keys (BinMatrixStats.to_dict x)) = false) /\
  (forall x, alphabetical (dict_keys (LociWindowProcessStats.to_dict x)) = false).
Proof. repeat split. Qed.

(** ** Decoding keeps the values of the node *)

(** C7. [BinMatrixStats.from_dict] copies the six values of the node into
    the record: whatever stands under the six keys, in particular counts
    with ones + zeros <> rows x columns, is what the accessors return;
    nothing is recomputed, adjusted or rejected. *)
Theorem from_dict_keeps_node_values
        (items : list (string * pyval)) (rows cols ones zeros dens spar : pyval) :
  dict_lookup items "number_of_rows" = Some rows ->
  dict_lookup items "number_of_columns" = Some cols ->
  dict_lookup items "number_of_ones" = Some ones ->
  dict_lookup items "number_of_zeros" = Some zeros ->
  dict_lookup items "density" = Some dens ->
  dict_lookup items "sparsity" = Some spar ->
  exists s,
    BinMatrixStats.from_dict (PDict items) = Ok s /\
    BinMatrixStats.number_of_rows s = rows /\
    BinMatrixStats.number_of_columns s = cols /\
    BinMatrixStats.number_of_ones s = ones /\
    BinMatrixStats.number_of_zeros s = zeros /\
    BinMatrixStats.density s = dens /\
    BinMatrixStats.sparsity s = spar.
Proof.
  intros Hr Hc Ho Hz Hd Hs.
  exists (BinMatrixStats.mk rows cols ones zeros dens spar).
  unfold BinMatrixStats.from_dict, getitem.
  unfold BinMatrixStats.NUMBER_OF_ROWS_KEY, BinMatrixStats.NUMBER_OF_COLUMNS_KEY,
    BinMatrixStats.NUMBER_OF_ONES_KEY, BinMatrixStats.NUMBER_OF_ZEROS_KEY,
    BinMatrixStats.DENSITY_KEY, BinMatrixStats.SPARSITY_KEY.
  rewrite Hr, Hc, Ho, Hz, Hd, Hs. repeat split.
Qed.

(** A 2 x 2 node that claims 5 ones and 5 zeros, density 0.9 and sparsity
    0.9. *)
Lemma from_dict_keeps_node_values_witness :
  5 + 5 <> 2 * 2 /\
  exists s,
    BinMatrixStats.from_dict
      (PDict [ ("number_of_rows", PInt 2); ("number_of_columns", PInt 2);
               ("number_of_ones", PInt 5); ("number_of_zeros", PInt 5);
               ("density", PFloat (FFin (9 # 10)));
               ("sparsity", PFloat (FFin (9 # 10))) ]%string) = Ok s /\
    BinMatrixStats.number_of_rows s = PInt 2 /\
    BinMatrixStats.number_of_columns s = PInt 2 /\
    BinMatrixStats.number_of_ones s = PInt 5 /\
    BinMatrixStats.number_of_zeros s = PInt 5 /\
    BinMatrixStats.density s = PFloat (FFin (9 # 10)) /\
    BinMatrixStats.sparsity s = PFloat (FFin (9 # 10)).
Proof.
  split; [lia|].
  apply from_dict_keeps_node_values; reflexivity.
Defined.

(** ** The class of a bipartition *)

(** C8. [complement] maps ZERO to ONE and ONE to ZERO, it is a function of
    the class alone (it returns a member and changes nothing), and applying
    it twice gives the class back. *)
Theorem complement_involution :
  BiPartClass.complement BiPartClass.ZERO = Ok BiPartClass.ONE /\
  BiPartClass.complement BiPartClass.ONE = Ok BiPartClass.ZERO /\
  forall c : BiPartClass.t,
    (c' <- BiPartClass.complement c ;; BiPartClass.complement c') = Ok c.
Proof.
  split; [reflexivity|split; [reflexivity|]].
  intros []; reflexivity.
Qed.

(** ** Setting the number of columns of a strip, and the other mutators *)



(** ** A contig node with a missing key *)

Lemma dict_lookup_set_other (items : list (string * pyval)) (k k' : string) (v : pyval) :
  k <> k' -> dict_lookup (dict_set items k v) k' = dict_lookup items k'.
Proof.
  intros Hne. induction items as [|[k0 v0] rest IH]; cbn [dict_set dict_lookup].
  - destruct (String.eqb_spec k k') as [->|_]; [contradiction|reflexivity].
  - destruct (String.eqb_spec k0 k) as [->|Hk0]; cbn [dict_lookup].
    + destruct (String.eqb_spec k k') as [->|_]; [contradiction|reflexivity].
    + rewrite IH. reflexivity.
Qed.

Lemma first_missing_raises (items : list (string * pyval)) (k : string) :
  first_missing items k ->
  ContigProcessStats.from_dict (PDict items) = Err (KeyError k).
Proof.
  intros H. unfold ContigProcessStats.from_dict.
  destruct H as [Hcs | cs Hcs Hn | cs name Hcs Hn Hl | cs name len Hcs Hn Hl Hw];
    cbn [getitem]; rewrite Hcs; cbn [bind]; try reflexivity;
    unfold ContigStats.from_dict; cbn [getitem]; rewrite Hn; cbn [bind];
    try reflexivity; rewrite Hl; cbn [bind]; try reflexivity.
  rewrite Hw. reflexivity.
Qed.

Lemma first_missing_any_windows (items : list (string * pyval)) (k : string) (w : pyval) :
  first_missing items k ->
  read_before_windows k ->
  first_missing (dict_set items ContigProcessStats.KEY_LOCI_WINDOWS_STATS w) k.
Proof.
  intros H Hk.
  assert (Hother : dict_lookup
                     (dict_set items ContigProcessStats.KEY_LOCI_WINDOWS_STATS w)
                     ContigProcessStats.KEY_CONTIG_STATS
                   = dict_lookup items ContigProcessStats.KEY_CONTIG_STATS)
    by (apply dict_lookup_set_other; discriminate).
  destruct H as [Hcs | cs Hcs Hn | cs name Hcs Hn Hl | cs name len Hcs Hn Hl Hw].
  - apply missing_contig_stats. now rewrite Hother.
  - apply (missing_contig_name _ cs); [now rewrite Hother|assumption].
  - apply (missing_contig_length _ cs name); [now rewrite Hother|assumption..].
  - destruct Hk as [Hk|[Hk|Hk]]; discriminate Hk.
Qed.

(** C5. A contig node whose first missing key is [k] makes
    [ContigProcessStats.from_dict] raise [KeyError(k)], the exception that
    names the key.  When [k] is contig_stats, contig_name or contig_length
    (the claim's example), the same exception is raised whatever stands under
    loci_windows_stats, well-formed or not: no window is read before the
    error.  A document that contains such a node is not decoded: [from_dicts]
    returns no collection at all, and when the nodes before it are
    well-formed the exception it raises is this [KeyError(k)]. *)
Theorem missing_contig_key_aborts
        (items : list (string * pyval)) (k : string) (pre post : list pyval) :
  first_missing items k ->
  ContigProcessStats.from_dict (PDict items) = Err (KeyError k) /\
  (read_before_windows k ->
   forall w : pyval,
     ContigProcessStats.from_dict
       (PDict (dict_set items ContigProcessStats.KEY_LOCI_WINDOWS_STATS w))
     = Err (KeyError k)) /\
  is_ok (ContigProcessStatsCollection.from_dicts (PList (pre ++ PDict items :: post)))
    = false /\
  (is_ok (ContigProcessStatsCollection.from_dicts (PList pre)) = true ->
   ContigProcessStatsCollection.from_dicts (PList (pre ++ PDict items :: post))
   = Err (KeyError k)).
Proof.
  intros H. pose proof (first_missing_raises items k H) as Hraise.
  split; [exact Hraise|]. split.
  - intros Hk w. apply first_missing_raises. now apply first_missing_any_windows.
  - unfold ContigProcessStatsCollection.from_dicts. cbn [py_iter bind].
    exact (mapM_err_at ContigProcessStats.from_dict pre post (PDict items)
             (KeyError k) Hraise).
Qed.

(** Scenario 4: the second contig of a document lacks contig_length and its
    list of windows holds a number where a window mapping is expected. *)
Lemma missing_contig_key_aborts_witness :
  let good := PDict [ ("contig_stats",
                       PDict [("contig_name", PStr "ctg1"); ("contig_length", PInt 5000)]);
                      ("loci_windows_stats", PList []) ]%string in
  let bad := [ ("contig_stats", PDict [("contig_name", PStr "ctg2")]);
               ("loci_windows_stats", PList [PInt 7]) ]%string in
  ContigProcessStats.from_dict (PDict bad) = Err (KeyError "contig_length") /\
  ContigProcessStatsCollection.from_dicts (PList ([good] ++ PDict bad :: [good]))
  = Err (KeyError "contig_length").
Proof.
  intros good bad.
  assert (Hmiss : first_missing bad "contig_length").
  { apply (missing_contig_length bad [("contig_name", PStr "ctg2")]%string (PStr "ctg2"));
      reflexivity. }
  destruct (missing_contig_key_aborts bad "contig_length" [good] [good] Hmiss)
    as (H1 & _ & _ & H4).
  split; [exact H1|]. apply H4. reflexivity.
Defined.

(** ** Counting the cells of a frame *)

Lemma column_sum_count (p : cell -> bool) (col : list cell) :
  series_sum (map Z.b2z (map p col)) = Z.of_nat (List.length (filter p col)).
Proof.
  induction col as [|c col IH]; [reflexivity|].
  cbn [map series_sum fold_right filter].
  change (fold_right Z.add 0 (map Z.b2z (map p col)))
    with (series_sum (map Z.b2z (map p col))).
  rewrite IH. destruct (p c); cbn [Z.b2z List.length]; lia.
Qed.

Lemma columns_sum_count (p : cell -> bool) (cols : list (list cell)) :
  series_sum (frame_sum (map (map p) cols))
  = Z.of_nat (List.length (filter p (List.concat cols))).
Proof.
  induction cols as [|col cols IH]; [reflexivity|].
  change (series_sum (frame_sum (map (map p) (col :: cols))))
    with (series_sum (map Z.b2z (map p col))
          + series_sum (frame_sum (map (map p) cols))).
  rewrite IH, column_sum_count. cbn [List.concat].
  rewrite filter_app, length_app. lia.
Qed.

(** [(df == n).sum().sum()] is the number of cells that compare equal to [n]. *)
Lemma sum_sum_count (df : DataFrame) (n : Z) :
  series_sum (frame_sum (df_eq df n)) = count_cells (fun c => cell_eq c n) df.
Proof. apply columns_sum_count. Qed.

Lemma cells_length (df : DataFrame) :
  DataFrame_wf df ->
  Z.of_nat (List.length (cells df)) = fst (shape df) * snd (shape df).
Proof.
  unfold DataFrame_wf, cells, shape. destruct df as [r cols]. cbn [columns index_size fst snd].
  induction 1 as [|col cols Hcol _ IH]; cbn [List.concat List.length].
  - lia.
  - rewrite length_app, Hcol. lia.
Qed.

Lemma cell_eq_1_not_0 (c : cell) : cell_eq c 1 = true -> cell_eq c 0 = false.
Proof.
  destruct c as [[|]|z|[q| |]|s]; cbn; try discriminate; try reflexivity.
  - intros H. apply Z.eqb_eq in H. subst z. reflexivity.
  - intros H1. destruct (Qeq_bool q (inject_Z 0)) eqn:H0; [|reflexivity].
    apply Qeq_bool_iff in H1. apply Qeq_bool_iff in H0.
    rewrite H1 in H0. discriminate H0.
Qed.

(** Ones and zeros are counted among disjoint sets of cells. *)
Lemma ones_zeros_le (l : list cell) :
  (List.length (filter (fun c => cell_eq c 1) l)
   + List.length (filter (fun c => cell_eq c 0) l) <= List.length l)%nat.
Proof.
  induction l as [|c l IH]; [reflexivity|]. cbn [filter List.length].
  destruct (cell_eq c 1) eqn:H1.
  - rewrite (cell_eq_1_not_0 c H1). cbn [List.length]. lia.
  - destruct (cell_eq c 0); cbn [List.length]; lia.
Qed.

Lemma ones_zeros_lt (l : list cell) :
  Exists (fun c => binary_cell c = false) l ->
  (List.length (filter (fun c => cell_eq c 1) l)
   + List.length (filter (fun c => cell_eq c 0) l) < List.length l)%nat.
Proof.
  induction 1 as [c l Hc|c l _ IH]; cbn [filter List.length].
  - unfold binary_cell in Hc. apply orb_false_iff in Hc. destruct Hc as [-> ->].
    pose proof (ones_zeros_le l). lia.
  - destruct (cell_eq c 1) eqn:H1.
    + rewrite (cell_eq_1_not_0 c H1). cbn [List.length]. lia.
    + destruct (cell_eq c 0); cbn [List.length]; lia.
Qed.

Lemma truth_eq_1 (c : cell) : truth c <> None -> cell_eq c 1 = is_true c.
Proof.
  unfold is_true. destruct c as [[|]|z|f|s]; cbn; try congruence.
  destruct (z =? 1); [reflexivity|]. destruct (z =? 0); [reflexivity|congruence].
Qed.

Lemma truth_eq_0 (c : cell) : truth c <> None -> cell_eq c 0 = negb (is_true c).
Proof.
  unfold is_true. destruct c as [[|]|z|f|s]; cbn; try congruence.
  destruct (Z.eqb_spec z 1) as [->|H1]; [reflexivity|].
  destruct (z =? 0); [reflexivity|congruence].
Qed.

Lemma boolean_counts (l : list cell) :
  Forall (fun c => truth c <> None) l ->
  filter (fun c => cell_eq c 1) l = filter is_true l /\
  (List.length (filter is_true l)
   + List.length (filter (fun c => cell_eq c 0) l) = List.length l)%nat.
Proof.
  induction 1 as [|c l Hc _ [IH1 IH2]]; [split; reflexivity|].
  cbn [filter]. rewrite (truth_eq_1 c Hc), (truth_eq_0 c Hc), IH1.
  split; [reflexivity|].
  destruct (is_true c); cbn [negb List.length]; lia.
Qed.

(** ** Division *)

Lemma np_true_divide_nonzero (a b : Z) :
  b <> 0 -> np_true_divide a b = (ratio a b, []).
Proof.
  intros Hb. unfold np_true_divide, ratio.
  destruct (Z.eqb_spec b 0); [contradiction|reflexivity].
Qed.

Lemma ratio_sum_lt_1 (a b n : Z) :
  0 < n -> a + b < n ->
  (Qred (inject_Z a / inject_Z n) + Qred (inject_Z b / inject_Z n) < 1)%Q.
Proof.
  intros Hn Hab. rewrite !Qred_correct.
  assert (Hn' : (inject_Z 0 < inject_Z n)%Q) by (rewrite <- Zlt_Qlt; exact Hn).
  change (inject_Z 0) with 0%Q in Hn'.
  assert (Hne : ~ (inject_Z n == 0)%Q).
  { intros E. rewrite E in Hn'. discriminate Hn'. }
  setoid_replace (inject_Z a / inject_Z n + inject_Z b / inject_Z n)%Q
    with (inject_Z (a + b) / inject_Z n)%Q
    by (rewrite inject_Z_plus; field; exact Hne).
  apply Qlt_shift_div_r; [exact Hn'|].
  rewrite Qmult_1_l, <- Zlt_Qlt. exact Hab.
Qed.

(** The record that [from_bin_dataframe] builds, when the frame has a cell. *)
Lemma from_bin_dataframe_cells (df : DataFrame) :
  fst (shape df) * snd (shape df) <> 0 ->
  BinMatrixStats.from_bin_dataframe df
  = (BinMatrixStats.mk
       (PInt (fst (shape df))) (PInt (snd (shape df)))
       (PInt (count_cells (fun c => cell_eq c 1) df))
       (PInt (count_cells (fun c => cell_eq c 0) df))
       (PFloat (ratio (count_cells (fun c => cell_eq c 1) df)
                      (fst (shape df) * snd (shape df))))
       (PFloat (ratio (count_cells (fun c => cell_eq c 0) df)
                      (fst (shape df) * snd (shape df)))),
     []).
Proof.
  intros Hn. unfold BinMatrixStats.from_bin_dataframe.
  rewrite !sum_sum_count, !(np_true_divide_nonzero _ _ Hn). reflexivity.
Qed.

(** ** Statistics derived from a frame *)

(** C4. For a boolean frame with r rows, c columns and k true cells, where
    r.c > 0, [from_bin_dataframe] returns rows = r, columns = c, ones = k,
    zeros = r.c - k, density = k / (r.c) and sparsity = (r.c - k) / (r.c),
    and no division flag is set; for every 4 x 3 frame with 5 true cells
    this is rows = 4, columns = 3, ones = 5, zeros = 7, density = 5/12 and
    sparsity = 7/12. *)
Theorem from_bin_dataframe_boolean (df : DataFrame) :
  DataFrame_wf df ->
  boolean_frame df ->
  let r := Z.of_nat (index_size df) in
  let c := Z.of_nat (List.length (columns df)) in
  let k := true_cells df in
  0 < r * c ->
  BinMatrixStats.from_bin_dataframe df
  = (BinMatrixStats.mk (PInt r) (PInt c) (PInt k) (PInt (r * c - k))
       (PFloat (ratio k (r * c))) (PFloat (ratio (r * c - k) (r * c))),
     []) /\
  (r = 4 -> c = 3 -> k = 5 ->
   fst (BinMatrixStats.from_bin_dataframe df)
   = BinMatrixStats.mk (PInt 4) (PInt 3) (PInt 5) (PInt 7)
       (PFloat (FFin (5 # 12))) (PFloat (FFin (7 # 12)))).
Proof.
  intros Hwf Hbool r c k Hpos.
  assert (Hcells : fst (shape df) * snd (shape df) = r * c) by reflexivity.
  assert (Hmain : BinMatrixStats.from_bin_dataframe df
                  = (BinMatrixStats.mk (PInt r) (PInt c) (PInt k) (PInt (r * c - k))
                       (PFloat (ratio k (r * c))) (PFloat (ratio (r * c - k) (r * c))),
                     [])).
  { rewrite from_bin_dataframe_cells by (rewrite Hcells; lia).
    destruct (boolean_counts (cells df) Hbool) as [H1 H0].
    pose proof (cells_length df Hwf) as Hlen. rewrite Hcells in Hlen.
    assert (Hones : count_cells (fun x => cell_eq x 1) df = k).
    { unfold k, true_cells, count_cells. now rewrite H1. }
    assert (Hzeros : count_cells (fun x => cell_eq x 0) df = r * c - k).
    { unfold k, true_cells, count_cells. lia. }
    rewrite Hones, Hzeros, Hcells. reflexivity. }
  split; [exact Hmain|].
  intros Hr Hc Hk. rewrite Hmain, Hr, Hc, Hk. reflexivity.
Qed.

(** Scenario 1 on a concrete 4 x 3 frame. *)
Lemma from_bin_dataframe_boolean_witness :
  BinMatrixStats.from_bin_dataframe frame_4x3
  = (BinMatrixStats.mk (PInt 4) (PInt 3) (PInt 5) (PInt 7)
       (PFloat (FFin (5 # 12))) (PFloat (FFin (7 # 12))),
     []).
Proof.
  assert (Hwf : DataFrame_wf frame_4x3) by (repeat constructor).
  assert (Hbool : boolean_frame frame_4x3) by (repeat constructor; discriminate).
  assert (Hpos : 0 < Z.of_nat (index_size frame_4x3)
                     * Z.of_nat (List.length (columns frame_4x3))) by reflexivity.
  destruct (from_bin_dataframe_boolean frame_4x3 Hwf Hbool Hpos) as [H _].
  exact H.
Defined.

(** C10. [from_bin_dataframe] counts as ones the cells that compare equal to
    1 and as zeros the cells that compare equal to 0, and nothing else.  So
    for a frame with a cell that is neither, ones + zeros is strictly less
    than rows x columns and density + sparsity is strictly less than 1: the
    derivation does not establish ones + zeros = rows x columns for
    non-binary input. *)
Theorem from_bin_dataframe_non_binary (df : DataFrame) :
  DataFrame_wf df ->
  has_non_binary_cell df ->
  let s := fst (BinMatrixStats.from_bin_dataframe df) in
  exists (ones zeros : Z) (d sp : Q),
    BinMatrixStats.number_of_rows s = PInt (Z.of_nat (index_size df)) /\
    BinMatrixStats.number_of_columns s = PInt (Z.of_nat (List.length (columns df))) /\
    BinMatrixStats.number_of_ones s = PInt ones /\
    BinMatrixStats.number_of_zeros s = PInt zeros /\
    BinMatrixStats.density s = PFloat (FFin d) /\
    BinMatrixStats.sparsity s = PFloat (FFin sp) /\
    ones = count_cells (fun c => cell_eq c 1) df /\
    zeros = count_cells (fun c => cell_eq c 0) df /\
    ones + zeros < Z.of_nat (index_size df) * Z.of_nat (List.length (columns df)) /\
    (d + sp < 1)%Q.
Proof.
  intros Hwf Hnb s.
  pose proof (ones_zeros_lt (cells df) Hnb) as Hlt.
  pose proof (cells_length df Hwf) as Hlen.
  set (n := fst (shape df) * snd (shape df)) in *.
  set (ones := count_cells (fun c => cell_eq c 1) df).
  set (zeros := count_cells (fun c => cell_eq c 0) df).
  assert (Hsum : ones + zeros < n) by (unfold ones, zeros, count_cells; lia).
  assert (Hn : 0 < n) by (unfold ones, zeros, count_cells in Hsum; lia).
  exists ones, zeros, (Qred (inject_Z ones / inject_Z n)),
    (Qred (inject_Z zeros / inject_Z n)).
  unfold s. rewrite from_bin_dataframe_cells by (fold n; lia).
  cbn [fst BinMatrixStats.number_of_rows BinMatrixStats.number_of_columns
       BinMatrixStats.number_of_ones BinMatrixStats.number_of_zeros
       BinMatrixStats.density BinMatrixStats.sparsity].
  repeat (split; [reflexivity|]).
  split; [exact Hsum|]. apply ratio_sum_lt_1; assumption.
Qed.

(** A 2 x 2 frame with a cell equal to 2: one cell is counted neither as a
    one nor as a zero. *)
Lemma from_bin_dataframe_non_binary_witness :
  BinMatrixStats.from_bin_dataframe frame_with_a_two
  = (BinMatrixStats.mk (PInt 2) (PInt 2) (PInt 2) (PInt 1)
       (PFloat (FFin (1 # 2))) (PFloat (FFin (1 # 4))), []) /\
  exists (ones zeros : Z) (d sp : Q),
    BinMatrixStats.number_of_ones (fst (BinMatrixStats.from_bin_dataframe frame_with_a_two))
      = PInt ones /\
    BinMatrixStats.number_of_zeros (fst (BinMatrixStats.from_bin_dataframe frame_with_a_two))
      = PInt zeros /\
    BinMatrixStats.density (fst (BinMatrixStats.from_bin_dataframe frame_with_a_two))
      = PFloat (FFin d) /\
    BinMatrixStats.sparsity (fst (BinMatrixStats.from_bin_dataframe frame_with_a_two))
      = PFloat (FFin sp) /\
    ones + zeros < 2 * 2 /\
    (d + sp < 1)%Q.
Proof.
  split; [reflexivity|].
  assert (Hwf : DataFrame_wf frame_with_a_two) by (repeat constructor).
  assert (Hnb : has_non_binary_cell frame_with_a_two)
    by (apply Exists_cons_tl, Exists_cons_hd; reflexivity).
  destruct (from_bin_dataframe_non_binary frame_with_a_two Hwf Hnb)
    as (ones & zeros & d & sp & _ & _ & Ho & Hz & Hd & Hs & _ & _ & Hlt & Hq).
  exists ones, zeros, d, sp. repeat (split; [assumption|]). exact Hq.
Defined.

(** ** The empty matrix *)

Lemma no_rows_no_cells (df : DataFrame) :
  DataFrame_wf df -> index_size df = 0%nat -> cells df = [].
Proof.
  unfold DataFrame_wf, cells. destruct df as [r cols]. cbn [index_size columns].
  intros Hwf ->. induction Hwf as [|col cols Hcol _ IH]; [reflexivity|].
  cbn [List.concat]. rewrite IH.
  destruct col; [reflexivity|discriminate Hcol].
Qed.

(** The claim C3 fails on a frame with one column and no row: the frame has
    no cell, [from_bin_dataframe] has no branch for it and divides 0 by 0
    twice, which sets the invalid-value flag twice and makes density and
    sparsity NaN. *)
Lemma empty_frame_is_divided_by_zero :
  DataFrame_wf frame_no_rows /\
  empty_matrix frame_no_rows /\
  BinMatrixStats.from_bin_dataframe frame_no_rows
  = (BinMatrixStats.mk (PInt 0) (PInt 1) (PInt 0) (PInt 0) (PFloat FNaN) (PFloat FNaN),
     [FlagInvalid; FlagInvalid]) /\
  ~ never_divides_by_zero.
Proof.
  assert (Hwf : DataFrame_wf frame_no_rows) by (repeat constructor).
  split; [exact Hwf|]. split; [reflexivity|]. split; [reflexivity|].
  intros H. specialize (H frame_no_rows Hwf). discriminate H.
Qed.

(** C3, amended.  [from_bin_dataframe] has no special case for the empty
    matrix: it always divides the two counts by rows x columns, with NumPy's
    division, which returns a value for every divisor.  For a frame with at
    least one column: when it has no row, all counts are 0, both divisions
    are 0 / 0, each sets the invalid-value flag, and density and sparsity are
    NaN; when it has a row, no flag is set and density and sparsity are the
    quotients of the counts by rows x columns. *)
Theorem from_bin_dataframe_division (df : DataFrame) :
  DataFrame_wf df ->
  columns df <> [] ->
  let c := Z.of_nat (List.length (columns df)) in
  (index_size df = 0%nat ->
   BinMatrixStats.from_bin_dataframe df
   = (BinMatrixStats.mk (PInt 0) (PInt c) (PInt 0) (PInt 0) (PFloat FNaN) (PFloat FNaN),
      [FlagInvalid; FlagInvalid])) /\
  (index_size df <> 0%nat ->
   exists ones zeros : Z,
     BinMatrixStats.from_bin_dataframe df
     = (BinMatrixStats.mk (PInt (Z.of_nat (index_size df))) (PInt c)
          (PInt ones) (PInt zeros)
          (PFloat (ratio ones (Z.of_nat (index_size df) * c)))
          (PFloat (ratio zeros (Z.of_nat (index_size df) * c))),
        [])).
Proof.
  intros Hwf Hcols c. split.
  - intros Hr. unfold BinMatrixStats.from_bin_dataframe.
    rewrite !sum_sum_count. unfold count_cells.
    rewrite (no_rows_no_cells df Hwf Hr). unfold shape. rewrite Hr. reflexivity.
  - intros Hr. eexists _, _. apply from_bin_dataframe_cells.
    unfold shape. cbn [fst snd].
    destruct (columns df); [contradiction|]. cbn [List.length]. lia.
Qed.

Lemma from_bin_dataframe_division_witness :
  BinMatrixStats.from_bin_dataframe frame_no_rows
  = (BinMatrixStats.mk (PInt 0) (PInt 1) (PInt 0) (PInt 0) (PFloat FNaN) (PFloat FNaN),
     [FlagInvalid; FlagInvalid]).
Proof.
  assert (Hwf : DataFrame_wf frame_no_rows) by (repeat constructor).
  assert (Hcols : columns frame_no_rows <> []) by discriminate.
  destruct (from_bin_dataframe_division frame_no_rows Hwf Hcols) as [H _].
  apply H. reflexivity.
Defined.

(** ** The conversions on concrete documents *)

(** Scenario 3: a QBC bundle without trash strip and with one strip of two
    biparts and one unassigned read. *)
Example qbc_bundle_round_trip :
  let bundle := QBCProcessStats.mk [strip_with_two_biparts] None in
  exists bundle',
    QBCProcessStats.from_dict (QBCProcessStats.to_dict bundle) = Ok bundle' /\
    QBCProcessStats.trash_strip_stats bundle' = None /\
    map QBCStripStats.number_of_biparts
        (QBCProcessStats.high_quality_strips_stats bundle') = [2%nat] /\
    map QBCStripStats.number_of_unassigned_reads
        (QBCProcessStats.high_quality_strips_stats bundle') = [1%nat].
Proof. eexists. repeat split. Qed.

(** Scenario 5: a document of two contigs, with one and with two windows. *)
Example document_round_trip :
  let doc : ContigProcessStatsCollection.t :=
    [ ContigProcessStats.mk (ContigStats.mk (PStr "ctg1") (PInt 5000))
        [window_at 0 100];
      ContigProcessStats.mk (ContigStats.mk (PStr "ctg2") (PInt 800))
        [window_at 300 400; window_at 0 100] ] in
  exists doc',
    ContigProcessStatsCollection.from_dicts (ContigProcessStatsCollection.to_dicts doc)
    = Ok doc' /\
    map (fun c => List.length (ContigProcessStats.loci_windows_stats c)) doc'
    = [1%nat; 2%nat].
Proof. eexists. split; reflexivity. Qed.

(** A window that is not a mapping is an error once the windows are read. *)
Example bad_window_is_reached_after_contig_stats :
  ContigProcessStats.from_dict
    (PDict [ ("contig_stats",
              PDict [("contig_name", PStr "ctg2"); ("contig_length", PInt 800)]);
             ("loci_windows_stats", PList [PInt 7]) ]%string)
  = Err TypeError.
Proof. reflexivity. Qed.

(** A class value other than 0 and 1 is refused. *)
Example bipart_class_out_of_range :
  BiPartStats.from_dict
    (PDict [ ("index", PInt 0); ("class", PInt 2);
             ("binmatrix_stats", BinMatrixStats.to_dict matrix_2x3) ]%string)
  = Err ValueError.
Proof. reflexivity. Qed.

(** A frame of integers 0 and 1 is a boolean frame as well. *)
Example from_bin_dataframe_of_integers :
  fst (BinMatrixStats.from_bin_dataframe
         (mkDataFrame 2 [ [CInt 1; CInt 0]; [CInt 1; CInt 1] ]))
  = BinMatrixStats.mk (PInt 2) (PInt 2) (PInt 3) (PInt 1)
      (PFloat (FFin (3 # 4))) (PFloat (FFin (1 # 4))).
Proof. reflexivity. Qed.

(** * Further properties of the decoders *)

(** ** Nodes of the wrong shape *)

Ltac non_mapping :=
  let v := fresh "v" in
  let Hv := fresh "Hv" in
  intros v Hv; destruct v; try discriminate Hv; reflexivity.

(** X1. Every [from_dict] raises [TypeError] on a node that is not a
    mapping (None, a boolean, a number, a string or a list): the first thing
    each of them does is to subscript the node with a string key. *)
Theorem from_dict_rejects_non_mapping :
  rejects_non_mapping BinMatrixStats.from_dict /\
  rejects_non_mapping BiPartStats.from_dict /\
  rejects_non_mapping UnassignedReadStats.from_dict /\
  rejects_non_mapping LowQualityHCAStripStats.from_dict /\
  rejects_non_mapping HCAStripStats.from_dict /\
  rejects_non_mapping HCAProcessStats.from_dict /\
  rejects_non_mapping QBCStripStats.from_dict /\
  rejects_non_mapping QBCTrashStripStats.from_dict /\
  rejects_non_mapping QBCProcessStats.from_dict /\
  rejects_non_mapping PostProcessStats.from_dict /\
  rejects_non_mapping LociWindowStats.from_dict /\
  rejects_non_mapping LociWindowProcessStats.from_dict /\
  rejects_non_mapping ContigStats.from_dict /\
  rejects_non_mapping ContigProcessStats.from_dict.
Proof. repeat split; non_mapping. Qed.

Lemma from_dict_rejects_non_mapping_witness :
  ContigProcessStats.from_dict (PList [PInt 1]) = Err TypeError.
Proof.
  destruct from_dict_rejects_non_mapping
    as (_ & _ & _ & _ & _ & _ & _ & _ & _ & _ & _ & _ & _ & H).
  apply H. reflexivity.
Defined.

Section OddNodes.
Context {A : Type}.
Variable from_dict : pyval -> result A.
Hypothesis from_dict_non_mapping : rejects_non_mapping from_dict.

Lemma from_dicts_odd_nodes :
  from_dicts_on_odd_nodes (fun dicts => it <- py_iter dicts ;; mapM from_dict it).
Proof.
  unfold from_dicts_on_odd_nodes. repeat split; try reflexivity.
  - intros kv items. cbn [py_iter bind map mapM].
    rewrite from_dict_non_mapping by reflexivity. reflexivity.
  - intros c s. cbn [py_iter bind chars mapM].
    rewrite from_dict_non_mapping by reflexivity. reflexivity.
Qed.
End OddNodes.

(** X2. What every [from_dicts] does with a node that is not a non-empty
    list.  None, a boolean and a number are not iterable: [TypeError].  The
    empty list, but also the empty mapping and the empty string, give the
    empty collection.  A non-empty mapping or string is iterated over its
    keys or characters, which are strings, and the element decoder raises
    [TypeError] on the first of them. *)
Theorem from_dicts_odd_nodes_all :
  from_dicts_on_odd_nodes HCAPreStripStatsCollection.from_dicts /\
  from_dicts_on_odd_nodes LowQualityHCAStripStatsCollection.from_dicts /\
  from_dicts_on_odd_nodes HCAStripStatsCollection.from_dicts /\
  from_dicts_on_odd_nodes QBCStripStatsCollection.from_dicts /\
  from_dicts_on_odd_nodes LociWindowStatsCollection.from_dicts /\
  from_dicts_on_odd_nodes ContigProcessStatsCollection.from_dicts.
Proof.
  repeat apply conj; apply from_dicts_odd_nodes; non_mapping.
Qed.

(** ** Missing keys of the flat records *)

Ltac by_lookups :=
  repeat match goal with
         | |- context [dict_lookup ?i ?k] =>
             destruct (dict_lookup i k); cbn [bind find]
         end.

(** X3. The five classes whose attributes are all scalars decode a mapping
    exactly when it has all their keys, whatever the values and whatever
    else it holds; otherwise they raise [KeyError] for the first missing
    key, in the order of the constructor's arguments. *)
Theorem flat_records_require_their_keys :
  requires_keys ["number_of_rows"; "number_of_columns"; "number_of_ones";
                 "number_of_zeros"; "density"; "sparsity"]%string
                BinMatrixStats.from_dict /\
  requires_keys ["read_id"; "number_of_ones"; "number_of_zeros"]%string
                UnassignedReadStats.from_dict /\
  requires_keys ["number_of_initial_haplotypes"; "number_of_low_quality_haplotypes";
                 "number_of_final_haplotypes"]%string
                PostProcessStats.from_dict /\
  requires_keys ["start_pos"; "stop_pos"]%string LociWindowStats.from_dict /\
  requires_keys ["contig_name"; "contig_length"]%string ContigStats.from_dict.
Proof.
  repeat apply conj; intros items.
  - unfold first_absent, BinMatrixStats.from_dict, getitem,
      BinMatrixStats.NUMBER_OF_ROWS_KEY, BinMatrixStats.NUMBER_OF_COLUMNS_KEY,
      BinMatrixStats.NUMBER_OF_ONES_KEY, BinMatrixStats.NUMBER_OF_ZEROS_KEY,
      BinMatrixStats.DENSITY_KEY, BinMatrixStats.SPARSITY_KEY.
    cbn [find]. by_lookups; eauto.
  - unfold first_absent, UnassignedReadStats.from_dict, getitem,
      UnassignedReadStats.KEY_READ_ID, UnassignedReadStats.KEY_NUMBER_OF_ONES,
      UnassignedReadStats.KEY_NUMBER_OF_ZEROS.
    cbn [find]. by_lookups; eauto.
  - unfold first_absent, PostProcessStats.from_dict, getitem,
      PostProcessStats.KEY_NUMBER_OF_INITIAL_HAPLOTYPES,
      PostProcessStats.KEY_NUMBER_OF_LOW_QUALITY_HAPLOTYPES,
      PostProcessStats.KEY_NUMBER_OF_FINAL_HAPLOTYPES.
    cbn [find]. by_lookups; eauto.
  - unfold first_absent, LociWindowStats.from_dict, getitem,
      LociWindowStats.KEY_START_POS, LociWindowStats.KEY_STOP_POS.
    cbn [find]. by_lookups; eauto.
  - unfold first_absent, ContigStats.from_dict, getitem,
      ContigStats.KEY_CONTIG_NAME, ContigStats.KEY_CONTIG_LENGTH.
    cbn [find]. by_lookups; eauto.
Qed.

(** ** Order of the items and unknown keys *)

Lemma dict_lookup_In (items : list (string * pyval)) (k : string) (v : pyval) :
  dict_lookup items k = Some v -> In (k, v) items.
Proof.
  induction items as [|[k0 v0] rest IH]; cbn [dict_lookup]; [discriminate|].
  destruct (String.eqb_spec k0 k) as [->|_].
  - intros [= ->]. left. reflexivity.
  - intros H. right. exact (IH H).
Qed.

Lemma dict_lookup_not_key (items : list (string * pyval)) (k : string) :
  ~ In k (map fst items) -> dict_lookup items k = None.
Proof.
  intros Hk. destruct (dict_lookup items k) as [v|] eqn:E; [|reflexivity].
  exfalso. apply Hk. apply dict_lookup_In in E.
  change k with (fst (k, v)). now apply in_map.
Qed.

Lemma dict_lookup_permutation (d1 d2 : list (string * pyval)) :
  NoDup (map fst d1) -> Permutation d1 d2 ->
  forall k, dict_lookup d1 k = dict_lookup d2 k.
Proof.
  intros Hnd Hp. induction Hp as [|[k0 v0] l l' Hp IH|[k1 v1] [k2 v2] l|l l' l'' Hp1 IH1 Hp2 IH2];
    intros k.
  - reflexivity.
  - cbn [dict_lookup]. cbn [map fst] in Hnd. apply NoDup_cons_iff in Hnd.
    rewrite (IH (proj2 Hnd)). reflexivity.
  - cbn [dict_lookup]. cbn [map fst] in Hnd. apply NoDup_cons_iff in Hnd.
    destruct Hnd as [Hnot _].
    destruct (String.eqb_spec k1 k) as [->|_]; [|reflexivity].
    destruct (String.eqb_spec k2 k) as [->|_]; [|reflexivity].
    exfalso. apply Hnot. left. reflexivity.
  - rewrite (IH1 Hnd). apply IH2.
    apply (Permutation_NoDup (Permutation_map fst Hp1) Hnd).
Qed.

Lemma dict_lookup_cons_other (items : list (string * pyval)) (k k' : string) (v : pyval) :
  k <> k' -> dict_lookup ((k, v) :: items) k' = dict_lookup items k'.
Proof.
  intros Hne. cbn [dict_lookup].
  destruct (String.eqb_spec k k') as [->|_]; [contradiction|reflexivity].
Qed.

Lemma dict_lookup_snoc_other (items : list (string * pyval)) (k k' : string) (v : pyval) :
  k <> k' -> dict_lookup (items ++ [(k, v)]) k' = dict_lookup items k'.
Proof.
  intros Hne. induction items as [|[k0 v0] rest IH].
  - apply dict_lookup_cons_other. exact Hne.
  - cbn [app dict_lookup]. rewrite IH. reflexivity.
Qed.

Lemma reads_only_order_and_unknown {A : Type} (keys : list string)
      (from_dict : pyval -> result A) :
  reads_only keys from_dict -> order_and_unknown_keys_irrelevant keys from_dict.
Proof.
  intros Hro. split.
  - intros d1 d2 Hnd Hp. apply Hro. intros k _.
    now apply dict_lookup_permutation.
  - intros items k v Hk. split; apply Hro; intros k' Hk'.
    + apply dict_lookup_cons_other. intros ->. contradiction.
    + apply dict_lookup_snoc_other. intros ->. contradiction.
Qed.

Ltac rewrite_lookups H :=
  unfold getitem;
  repeat match goal with
         | |- context [dict_lookup ?d ?k] =>
             lazymatch goal with
             | H' : forall k', In k' _ -> dict_lookup d k' = dict_lookup ?d2 k' |- _ =>
                 rewrite (H' k) by (cbn; tauto)
             end
         end.

Lemma BinMatrixStats_reads_only :
  reads_only ["number_of_rows"; "number_of_columns"; "number_of_ones";
              "number_of_zeros"; "density"; "sparsity"]%string
             BinMatrixStats.from_dict.
Proof. intros d1 d2 H. unfold BinMatrixStats.from_dict. rewrite_lookups H. reflexivity. Qed.

Ltac reads_only_tac :=
  let d1 := fresh "d1" in
  let d2 := fresh "d2" in
  let H := fresh "H" in
  intros d1 d2 H;
  match goal with |- ?f (PDict _) = _ => unfold f end;
  unfold LociWindowProcessStats.optional;
  rewrite_lookups H; reflexivity.

(** X4. Each [from_dict] reads a mapping through its own keys only.  So the
    order in which a mapping (with distinct keys) lists its items does not
    change what is decoded or which exception is raised, and an item under a
    key that the class does not know is ignored, wherever it stands. *)
Theorem from_dict_order_and_unknown_keys :
  order_and_unknown_keys_irrelevant
    ["number_of_rows"; "number_of_columns"; "number_of_ones"; "number_of_zeros";
     "density"; "sparsity"]%string BinMatrixStats.from_dict /\
  order_and_unknown_keys_irrelevant
    ["index"; "class"; "binmatrix_stats"]%string BiPartStats.from_dict /\
  order_and_unknown_keys_irrelevant
    ["read_id"; "number_of_ones"; "number_of_zeros"]%string
    UnassignedReadStats.from_dict /\
  order_and_unknown_keys_irrelevant
    ["strip_number"; "number_of_columns"; "bin_matrices_stats"]%string
    LowQualityHCAStripStats.from_dict /\
  order_and_unknown_keys_irrelevant
    ["index"; "number_of_columns"; "bipart_stats"]%string HCAStripStats.from_dict /\
  order_and_unknown_keys_irrelevant
    ["low_quality_prestrips_stats"; "high_quality_prestrips_stats";
     "low_quality_hca_strip_stats"; "high_quality_hca_strip_stats"]%string
    HCAProcessStats.from_dict /\
  order_and_unknown_keys_irrelevant
    ["index"; "number_of_columns"; "bipart_stats"; "unassigned_reads"]%string
    QBCStripStats.from_dict /\
  order_and_unknown_keys_irrelevant
    ["index"; "matrix_stats"]%string QBCTrashStripStats.from_dict /\
  order_and_unknown_keys_irrelevant
    ["high_quality_strips_stats"; "trash_strip_stats"]%string
    QBCProcessStats.from_dict /\
  order_and_unknown_keys_irrelevant
    ["number_of_initial_haplotypes"; "number_of_low_quality_haplotypes";
     "number_of_final_haplotypes"]%string PostProcessStats.from_dict /\
  order_and_unknown_keys_irrelevant
    ["start_pos"; "stop_pos"]%string LociWindowStats.from_dict /\
  order_and_unknown_keys_irrelevant
    ["loci_window_stats"; "hca_process_stats"; "qbc_process_stats";
     "postprocess_stats"]%string LociWindowProcessStats.from_dict /\
  order_and_unknown_keys_irrelevant
    ["contig_name"; "contig_length"]%string ContigStats.from_dict /\
  order_and_unknown_keys_irrelevant
    ["contig_stats"; "loci_windows_stats"]%string ContigProcessStats.from_dict.
Proof.
  split_all; apply reads_only_order_and_unknown; reads_only_tac.
Qed.

(** A matrix node written with its keys in alphabetical order and a comment
    decodes as the node in declaration order does. *)
Lemma from_dict_order_and_unknown_keys_witness :
  BinMatrixStats.from_dict
    (PDict [ ("comment", PStr "rerun");
             ("density", PFloat (FFin (1 # 2))); ("number_of_columns", PInt 2);
             ("number_of_ones", PInt 1); ("number_of_rows", PInt 1);
             ("number_of_zeros", PInt 1); ("sparsity", PFloat (FFin (1 # 2))) ]%string)
  = Ok (BinMatrixStats.mk (PInt 1) (PInt 2) (PInt 1) (PInt 1)
          (PFloat (FFin (1 # 2))) (PFloat (FFin (1 # 2)))).
Proof.
  destruct from_dict_order_and_unknown_keys as ((Hperm & Hextra) & _).
  rewrite (proj1 (Hextra _ "comment"%string (PStr "rerun")
                    ltac:(cbn; intuition discriminate))).
  rewrite <- (Hperm
    [ ("number_of_rows", PInt 1); ("number_of_columns", PInt 2);
      ("number_of_ones", PInt 1); ("number_of_zeros", PInt 1);
      ("density", PFloat (FFin (1 # 2))); ("sparsity", PFloat (FFin (1 # 2))) ]%string).
  - reflexivity.
  - repeat constructor; cbn; intuition discriminate.
  - apply (@Permutation_cons_app _ _ [_; _; _] [_; _] _). cbn [app].
    apply (@Permutation_cons_app _ _ [_] [_; _; _] _). cbn [app].
    apply (@Permutation_cons_app _ _ [_] [_; _] _). cbn [app].
    apply (@Permutation_cons_app _ _ [_] [_] _). cbn [app].
    apply Permutation_refl.
Defined.

(** ** The class of a decoded bipartition *)





(** ** Order of the look-ups in a QBC strip *)

(** X6. [QBCStripStats.from_dict] looks up its four keys before it decodes
    any bipart or read: the two sequences are passed to the constructor as
    generators, which run there.  So with index, number of columns and an
    iterable "bipart_stats" in place, a missing "unassigned_reads" raises
    [KeyError] for that key whatever the biparts are: a malformed bipart is
    not reported first. *)
Theorem qbc_strip_keys_before_elements
        (items : list (string * pyval)) (i n bn : pyval) (biparts : list pyval) :
  dict_lookup items "index" = Some i ->
  dict_lookup items "number_of_columns" = Some n ->
  dict_lookup items "bipart_stats" = Some bn ->
  py_iter bn = Ok biparts ->
  dict_lookup items "unassigned_reads" = None ->
  QBCStripStats.from_dict (PDict items) = Err (KeyError "unassigned_reads").
Proof.
  intros Hi Hn Hb Hit Hu. unfold QBCStripStats.from_dict, getitem.
  change QBCStripStats.KEY_INDEX with "index"%string.
  change QBCStripStats.KEY_NUMBER_OF_COLUMNS with "number_of_columns"%string.
  change QBCStripStats.KEY_BIPART_STATS with "bipart_stats"%string.
  change QBCStripStats.KEY_UNASSIGNED_READS with "unassigned_reads"%string.
  rewrite Hi, Hn, Hb. cbn [bind]. rewrite Hit. cbn [bind]. rewrite Hu. reflexivity.
Qed.

(** A strip whose only bipart is the number 7 and that has no
    "unassigned_reads". *)
Lemma qbc_strip_keys_before_elements_witness :
  QBCStripStats.from_dict
    (PDict [ ("index", PInt 0); ("number_of_columns", PInt 4);
             ("bipart_stats", PList [PInt 7]) ]%string)
  = Err (KeyError "unassigned_reads").
Proof.
  apply (qbc_strip_keys_before_elements _ (PInt 0) (PInt 4) (PList [PInt 7]) [PInt 7]);
    reflexivity.
Defined.

(** ** Decoding a list of nodes *)

Lemma mapM_ok_iff {A B : Type} (f : A -> result B) (xs : list A) (ys : list B) :
  mapM f xs = Ok ys <-> Forall2 (fun x y => f x = Ok y) xs ys.
Proof.
  revert ys. induction xs as [|x xs IH]; intros ys; cbn [mapM].
  - split.
    + intros [= <-]. constructor.
    + intros H. inversion H. reflexivity.
  - split.
    + destruct (f x) as [y|e] eqn:Hx; cbn [bind]; [|discriminate].
      destruct (mapM f xs) as [ys'|e] eqn:Hxs; cbn [bind]; [|discriminate].
      intros [= <-]. constructor; [exact Hx|]. now apply IH.
    + intros H. inversion H as [|x' y xs' ys' Hx Hrest]; subst.
      rewrite Hx. cbn [bind]. apply IH in Hrest. rewrite Hrest. reflexivity.
Qed.

(** X7. A [from_dicts] succeeds on a list of nodes exactly when every node
    decodes, and its result then holds the decoded records one for one, in
    the order of the nodes: none is skipped, merged or moved. *)
Theorem from_dicts_elementwise :
  (forall nodes rs,
     HCAPreStripStatsCollection.from_dicts (PList nodes) = Ok rs
     <-> Forall2 (fun n r => BinMatrixStats.from_dict n = Ok r) nodes rs) /\
  (forall nodes rs,
     LowQualityHCAStripStatsCollection.from_dicts (PList nodes) = Ok rs
     <-> Forall2 (fun n r => LowQualityHCAStripStats.from_dict n = Ok r) nodes rs) /\
  (forall nodes rs,
     HCAStripStatsCollection.from_dicts (PList nodes) = Ok rs
     <-> Forall2 (fun n r => HCAStripStats.from_dict n = Ok r) nodes rs) /\
  (forall nodes rs,
     QBCStripStatsCollection.from_dicts (PList nodes) = Ok rs
     <-> Forall2 (fun n r => QBCStripStats.from_dict n = Ok r) nodes rs) /\
  (forall nodes rs,
     LociWindowStatsCollection.from_dicts (PList nodes) = Ok rs
     <-> Forall2 (fun n r => LociWindowProcessStats.from_dict n = Ok r) nodes rs) /\
  (forall nodes rs,
     ContigProcessStatsCollection.from_dicts (PList nodes) = Ok rs
     <-> Forall2 (fun n r => ContigProcessStats.from_dict n = Ok r) nodes rs).
Proof. split_all; intros nodes rs; apply mapM_ok_iff. Qed.

(** ** The keys of the optional stages *)

Lemma HCAProcessStats_rejects_non_mapping :
  rejects_non_mapping HCAProcessStats.from_dict.
Proof. non_mapping. Qed.

(** X8. The keys of the optional parts must be there.  In a window mapping
    whose "loci_window_stats" decodes, a missing "hca_process_stats" raises
    [KeyError] for it: only an explicit None means that the stage did not
    run.  A value that is neither None nor a mapping ([False], 0, a list)
    raises [TypeError], and the empty mapping raises [KeyError] for the
    first key of the bundle: none of them is read as an absent or an empty
    bundle.  The keys of the next stages are demanded in turn.  Likewise a
    QBC bundle whose strips decode must have "trash_strip_stats". *)
Theorem optional_keys_are_required :
  (forall (items : list (string * pyval)) (wn : pyval) (w : LociWindowStats.t),
     dict_lookup items "loci_window_stats" = Some wn ->
     LociWindowStats.from_dict wn = Ok w ->
     (dict_lookup items "hca_process_stats" = None ->
      LociWindowProcessStats.from_dict (PDict items)
      = Err (KeyError "hca_process_stats")) /\
     (forall v, dict_lookup items "hca_process_stats" = Some v ->
                is_None v = false -> is_mapping v = false ->
                LociWindowProcessStats.from_dict (PDict items) = Err TypeError) /\
     (dict_lookup items "hca_process_stats" = Some (PDict []) ->
      LociWindowProcessStats.from_dict (PDict items)
      = Err (KeyError "low_quality_prestrips_stats")) /\
     (dict_lookup items "hca_process_stats" = Some PNone ->
      dict_lookup items "qbc_process_stats" = None ->
      LociWindowProcessStats.from_dict (PDict items)
      = Err (KeyError "qbc_process_stats")) /\
     (dict_lookup items "hca_process_stats" = Some PNone ->
      dict_lookup items "qbc_process_stats" = Some PNone ->
      dict_lookup items "postprocess_stats" = None ->
      LociWindowProcessStats.from_dict (PDict items)
      = Err (KeyError "postprocess_stats"))) /\
  (forall (items : list (string * pyval)) (hn : pyval) (h : QBCStripStatsCollection.t),
     dict_lookup items "high_quality_strips_stats" = Some hn ->
     QBCStripStatsCollection.from_dicts hn = Ok h ->
     dict_lookup items "trash_strip_stats" = None ->
     QBCProcessStats.from_dict (PDict items) = Err (KeyError "trash_strip_stats")).
Proof.
  split.
  - intros items wn w Hw Hwd.
    unfold LociWindowProcessStats.from_dict, LociWindowProcessStats.optional, getitem.
    change LociWindowProcessStats.KEY_LOCI_WINDOW_STATS with "loci_window_stats"%string.
    change LociWindowProcessStats.KEY_HCA_PROCESS_STATS with "hca_process_stats"%string.
    change LociWindowProcessStats.KEY_QBC_PROCESS_STATS with "qbc_process_stats"%string.
    change LociWindowProcessStats.KEY_POSTPROCESS_STATS with "postprocess_stats"%string.
    rewrite Hw. cbn [bind]. rewrite Hwd. cbn [bind].
    split; [|split; [|split; [|split]]].
    + intros ->. reflexivity.
    + intros v -> Hnone Hmap. cbn [bind]. rewrite Hnone.
      now rewrite (HCAProcessStats_rejects_non_mapping v Hmap).
    + intros ->. reflexivity.
    + intros -> ->. reflexivity.
    + intros -> -> ->. reflexivity.
  - intros items hn h Hh Hhd Ht. unfold QBCProcessStats.from_dict, getitem.
    change QBCProcessStats.KEY_HIGH_QUALITY_STRIPS_STATS
      with "high_quality_strips_stats"%string.
    change QBCProcessStats.KEY_TRASH_STRIP_STATS with "trash_strip_stats"%string.
    rewrite Hh. cbn [bind]. rewrite Hhd. cbn [bind]. rewrite Ht. reflexivity.
Qed.

(** A window without "hca_process_stats", and one with the empty mapping
    under it. *)
Lemma optional_keys_are_required_witness :
  LociWindowProcessStats.from_dict
    (PDict [ ("loci_window_stats",
              PDict [("start_pos", PInt 0); ("stop_pos", PInt 10)]);
             ("qbc_process_stats", PNone); ("postprocess_stats", PNone) ]%string)
  = Err (KeyError "hca_process_stats") /\
  LociWindowProcessStats.from_dict
    (PDict [ ("loci_window_stats",
              PDict [("start_pos", PInt 0); ("stop_pos", PInt 10)]);
             ("hca_process_stats", PDict []);
             ("qbc_process_stats", PNone); ("postprocess_stats", PNone) ]%string)
  = Err (KeyError "low_quality_prestrips_stats").
Proof.
  destruct optional_keys_are_required as [H _]. split.
  - refine (proj1 (H _ (PDict [("start_pos", PInt 0); ("stop_pos", PInt 10)]%string)
                     (LociWindowStats.mk (PInt 0) (PInt 10)) _ _) _); reflexivity.
  - refine (proj1 (proj2 (proj2
             (H _ (PDict [("start_pos", PInt 0); ("stop_pos", PInt 10)]%string)
                (LociWindowStats.mk (PInt 0) (PInt 10)) _ _))) _); reflexivity.
Defined.

(** * Further properties of the derived statistics *)

Lemma counts_eq_iff_binary (l : list cell) :
  (List.length (filter (fun c => cell_eq c 1) l)
   + List.length (filter (fun c => cell_eq c 0) l) = List.length l)%nat
  <-> Forall (fun c => binary_cell c = true) l.
Proof.
  induction l as [|c l IH].
  - split; [constructor|reflexivity].
  - pose proof (ones_zeros_le l) as Hle. cbn [filter List.length].
    unfold binary_cell at 1.
    destruct (cell_eq c 1) eqn:H1.
    + rewrite (cell_eq_1_not_0 c H1). cbn [List.length orb]. split.
      * intros H. constructor; [unfold binary_cell; now rewrite H1|]. apply IH. lia.
      * intros H. inversion H as [|? ? _ Hl]; subst. apply IH in Hl. lia.
    + destruct (cell_eq c 0) eqn:H0; cbn [List.length orb]; split.
      * intros H. constructor; [unfold binary_cell; now rewrite H1, H0|]. apply IH. lia.
      * intros H. inversion H as [|? ? _ Hl]; subst. apply IH in Hl. lia.
      * intros H. lia.
      * intros H. inversion H as [|? ? Hc _]; subst.
        unfold binary_cell in Hc. rewrite H1, H0 in Hc. discriminate Hc.
Qed.

Lemma Qred_div_pos (a : Z) (p : positive) :
  (Qred (inject_Z a / inject_Z (Zpos p)) == a # p)%Q.
Proof. rewrite Qred_correct. symmetry. apply Qmake_Qdiv. Qed.

(** X9. For a well-formed frame with at least one cell, whatever its cells
    hold: ones and zeros are not negative and ones + zeros is at most
    rows x columns, density and sparsity lie between 0 and 1 and their sum is
    at most 1.  The sum of the counts is rows x columns, and density +
    sparsity is 1, exactly when every cell compares equal to 0 or to 1. *)
Theorem from_bin_dataframe_bounds (df : DataFrame) :
  DataFrame_wf df ->
  0 < fst (shape df) * snd (shape df) ->
  let s := fst (BinMatrixStats.from_bin_dataframe df) in
  exists (ones zeros : Z) (d sp : Q),
    BinMatrixStats.number_of_ones s = PInt ones /\
    BinMatrixStats.number_of_zeros s = PInt zeros /\
    BinMatrixStats.density s = PFloat (FFin d) /\
    BinMatrixStats.sparsity s = PFloat (FFin sp) /\
    0 <= ones /\ 0 <= zeros /\
    ones + zeros <= fst (shape df) * snd (shape df) /\
    (ones + zeros = fst (shape df) * snd (shape df) <-> all_binary df) /\
    (0 <= d /\ d <= 1 /\ 0 <= sp /\ sp <= 1 /\ d + sp <= 1)%Q /\
    ((d + sp == 1)%Q <-> all_binary df).
Proof.
  intros Hwf Hpos s.
  pose proof (cells_length df Hwf) as Hlen.
  pose proof (ones_zeros_le (cells df)) as Hle.
  pose proof (counts_eq_iff_binary (cells df)) as Hiff.
  set (n := fst (shape df) * snd (shape df)) in *.
  set (ones := count_cells (fun c => cell_eq c 1) df).
  set (zeros := count_cells (fun c => cell_eq c 0) df).
  assert (Ho : 0 <= ones) by (unfold ones, count_cells; lia).
  assert (Hz : 0 <= zeros) by (unfold zeros, count_cells; lia).
  assert (Hsum : ones + zeros <= n) by (unfold ones, zeros, count_cells; lia).
  assert (Hbin : ones + zeros = n <-> all_binary df).
  { unfold all_binary. rewrite <- Hiff. unfold ones, zeros, count_cells. lia. }
  exists ones, zeros, (Qred (inject_Z ones / inject_Z n)),
    (Qred (inject_Z zeros / inject_Z n)).
  unfold s. rewrite from_bin_dataframe_cells by (fold n; lia).
  cbn [fst BinMatrixStats.number_of_ones BinMatrixStats.number_of_zeros
       BinMatrixStats.density BinMatrixStats.sparsity].
  repeat (split; [reflexivity|]).
  split; [exact Ho|]. split; [exact Hz|]. split; [exact Hsum|]. split; [exact Hbin|].
  destruct n as [|p|p]; try lia.
  rewrite !Qred_div_pos. rewrite <- Hbin.
  unfold Qle, Qeq, Qplus. cbn [Qnum Qden].
  repeat split; try nia.
Qed.

(** On the frame with a cell equal to 2 the sum is 3/4; on the 4 x 3 boolean
    frame it is 1. *)
Lemma from_bin_dataframe_bounds_witness :
  (exists (ones zeros : Z) (d sp : Q),
     BinMatrixStats.number_of_ones
       (fst (BinMatrixStats.from_bin_dataframe frame_with_a_two)) = PInt ones /\
     BinMatrixStats.number_of_zeros
       (fst (BinMatrixStats.from_bin_dataframe frame_with_a_two)) = PInt zeros /\
     BinMatrixStats.density
       (fst (BinMatrixStats.from_bin_dataframe frame_with_a_two)) = PFloat (FFin d) /\
     BinMatrixStats.sparsity
       (fst (BinMatrixStats.from_bin_dataframe frame_with_a_two)) = PFloat (FFin sp) /\
     ones + zeros <= 4 /\ (d + sp <= 1)%Q) /\
  all_binary frame_4x3.
Proof.
  split.
  - assert (Hwf : DataFrame_wf frame_with_a_two) by (repeat constructor).
    assert (Hpos : 0 < fst (shape frame_with_a_two) * snd (shape frame_with_a_two))
      by reflexivity.
    destruct (from_bin_dataframe_bounds frame_with_a_two Hwf Hpos)
      as (ones & zeros & d & sp & Ho & Hz & Hd & Hs & _ & _ & Hle & _ & Hq & _).
    exists ones, zeros, d, sp.
    repeat (split; [assumption|]). apply Hq.
  - repeat constructor.
Defined.

Lemma filter_length_permutation {A : Type} (p : A -> bool) (l l' : list A) :
  Permutation l l' -> List.length (filter p l) = List.length (filter p l').
Proof.
  induction 1 as [|x l l' _ IH|x y l|l l' l'' _ IH1 _ IH2]; cbn [filter].
  - reflexivity.
  - destruct (p x); cbn [List.length]; now rewrite IH.
  - destruct (p x), (p y); reflexivity.
  - now rewrite IH1.
Qed.

(** X10. The statistics depend on the shape of the frame and on which cells
    it holds, not on where they stand: two frames of the same shape whose
    cells are a rearrangement of each other (columns or rows in another
    order, for instance) give the same record and the same flags. *)
Theorem from_bin_dataframe_rearranged (df1 df2 : DataFrame) :
  shape df1 = shape df2 ->
  Permutation (cells df1) (cells df2) ->
  BinMatrixStats.from_bin_dataframe df1 = BinMatrixStats.from_bin_dataframe df2.
Proof.
  intros Hshape Hperm. unfold BinMatrixStats.from_bin_dataframe.
  rewrite !sum_sum_count. unfold count_cells.
  rewrite (filter_length_permutation (fun c => cell_eq c 1) _ _ Hperm),
    (filter_length_permutation (fun c => cell_eq c 0) _ _ Hperm), Hshape.
  reflexivity.
Qed.

(** The 2 x 2 frame with a cell equal to 2, and the same with its columns
    and its rows exchanged. *)
Lemma from_bin_dataframe_rearranged_witness :
  BinMatrixStats.from_bin_dataframe frame_with_a_two
  = BinMatrixStats.from_bin_dataframe
      (mkDataFrame 2 [ [CInt 1; CInt 0]; [CInt 2; CInt 1] ]).
Proof.
  apply from_bin_dataframe_rearranged; [reflexivity|].
  cbn. apply perm_skip, perm_swap.
Defined.

(** * Further properties of the collections and the strips *)

Lemma list_sequence_laws {A : Type} :
  sequence_laws (fun s : list A => Z.of_nat (List.length s))
                list_getitem (fun s x => s ++ [x]).
Proof.
  unfold sequence_laws, list_getitem. split_all.
  - intros s x. rewrite length_app. cbn [List.length]. lia.
  - intros s x. rewrite length_app. cbn [List.length].
    destruct (Z.ltb_spec (Z.of_nat (List.length s)) 0) as [?|_]; [lia|].
    destruct (Z.leb_spec 0 (Z.of_nat (List.length s))) as [_|?]; [|lia].
    destruct (Z.ltb_spec (Z.of_nat (List.length s))
                (Z.of_nat (List.length s + 1))) as [_|?]; [|lia].
    cbn [andb]. rewrite Nat2Z.id, nth_error_app2 by lia.
    rewrite Nat.sub_diag. reflexivity.
  - intros s x. rewrite length_app. cbn [List.length].
    change (-1 <? 0) with true. cbv iota.
    replace (Z.of_nat (List.length s + 1) + -1) with (Z.of_nat (List.length s)) by lia.
    destruct (Z.leb_spec 0 (Z.of_nat (List.length s))) as [_|?]; [|lia].
    destruct (Z.ltb_spec (Z.of_nat (List.length s))
                (Z.of_nat (List.length s + 1))) as [_|?]; [|lia].
    cbn [andb]. rewrite Nat2Z.id, nth_error_app2 by lia.
    rewrite Nat.sub_diag. reflexivity.
  - intros s x i Hi. rewrite length_app. cbn [List.length].
    destruct (Z.ltb_spec i 0) as [?|_]; [lia|].
    destruct (Z.leb_spec 0 i) as [_|?]; [|lia].
    destruct (Z.ltb_spec i (Z.of_nat (List.length s + 1))) as [_|?]; [|lia].
    destruct (Z.ltb_spec i (Z.of_nat (List.length s))) as [_|?]; [|lia].
    cbn [andb]. rewrite nth_error_app1 by lia. reflexivity.
  - intros s i Hi.
    destruct (Z.ltb_spec i 0) as [_|?]; [|lia].
    destruct (Z.ltb_spec (Z.of_nat (List.length s) + i) 0) as [?|_]; [lia|].
    reflexivity.
  - intros s i. set (n := Z.of_nat (List.length s)).
    destruct (Z.ltb_spec i 0) as [Hneg|Hpos].
    + destruct (Z.leb_spec 0 (n + i)) as [H0|H0]; cbn [andb].
      * destruct (Z.ltb_spec (n + i) n) as [_|?]; [|lia].
        destruct (nth_error s (Z.to_nat (n + i))) as [a|] eqn:E.
        -- split; [discriminate|lia].
        -- apply nth_error_None in E. unfold n in *. lia.
      * split; [lia|reflexivity].
    + destruct (Z.leb_spec 0 i) as [_|?]; [|lia]. cbn [andb].
      destruct (Z.ltb_spec i n) as [Hlt|Hge].
      * destruct (nth_error s (Z.to_nat i)) as [a|] eqn:E.
        -- split; [discriminate|lia].
        -- apply nth_error_None in E. unfold n in *. lia.
      * split; [lia|reflexivity].
Qed.

(** X11. The collection classes behave as Python lists under [len],
    indexing and [append]: [append] adds one to the length and puts the
    element at index [len] (and -1) without moving the others; a negative
    index [i] reads the element at [len + i]; and indexing raises
    [IndexError] exactly outside [-len .. len - 1].  For the classes with
    [extend], extending twice is extending with the concatenation, and
    extending with one element is [append]. *)
Theorem collections_are_sequences :
  sequence_laws HCAPreStripStatsCollection.__len__
    HCAPreStripStatsCollection.__getitem__ HCAPreStripStatsCollection.append /\
  sequence_laws LowQualityHCAStripStatsCollection.__len__
    LowQualityHCAStripStatsCollection.__getitem__
    LowQualityHCAStripStatsCollection.append /\
  sequence_laws HCAStripStatsCollection.__len__
    HCAStripStatsCollection.__getitem__ HCAStripStatsCollection.append /\
  sequence_laws QBCStripStatsCollection.__len__
    QBCStripStatsCollection.__getitem__ QBCStripStatsCollection.append /\
  sequence_laws LociWindowStatsCollection.__len__
    LociWindowStatsCollection.__getitem__ LociWindowStatsCollection.append /\
  sequence_laws ContigProcessStatsCollection.__len__
    ContigProcessStatsCollection.__getitem__ ContigProcessStatsCollection.append /\
  (forall s a b x,
     HCAPreStripStatsCollection.extend (HCAPreStripStatsCollection.extend s a) b
     = HCAPreStripStatsCollection.extend s (a ++ b) /\
     HCAPreStripStatsCollection.extend s [x] = HCAPreStripStatsCollection.append s x) /\
  (forall s a b x,
     LowQualityHCAStripStatsCollection.extend
       (LowQualityHCAStripStatsCollection.extend s a) b
     = LowQualityHCAStripStatsCollection.extend s (a ++ b) /\
     LowQualityHCAStripStatsCollection.extend s [x]
     = LowQualityHCAStripStatsCollection.append s x) /\
  (forall s a b x,
     LociWindowStatsCollection.extend (LociWindowStatsCollection.extend s a) b
     = LociWindowStatsCollection.extend s (a ++ b) /\
     LociWindowStatsCollection.extend s [x] = LociWindowStatsCollection.append s x) /\
  (forall s a b x,
     ContigProcessStatsCollection.extend (ContigProcessStatsCollection.extend s a) b
     = ContigProcessStatsCollection.extend s (a ++ b) /\
     ContigProcessStatsCollection.extend s [x] = ContigProcessStatsCollection.append s x).
Proof.
  split_all;
    first [ exact list_sequence_laws
          | intros s a b x; split; [apply eq_sym, app_assoc|reflexivity] ].
Qed.

(** A collection of two windows: indexing after an [append]. *)
Lemma collections_are_sequences_witness :
  let s := [window_at 0 100; window_at 100 200] in
  LociWindowStatsCollection.__getitem__
    (LociWindowStatsCollection.append s (window_at 200 300)) 1
  = Item (window_at 100 200) /\
  LociWindowStatsCollection.__getitem__ s (-2) = Item (window_at 0 100) /\
  LociWindowStatsCollection.__getitem__ s 2 = IndexError.
Proof.
  intros s.
  destruct collections_are_sequences
    as (_ & _ & _ & _ & (_ & _ & _ & Hkeep & Hneg & Herr) & _).
  split; [|split].
  - rewrite (Hkeep s (window_at 200 300) 1) by (cbn; lia). reflexivity.
  - rewrite (Hneg s (-2)) by (cbn; lia). reflexivity.
  - apply Herr. right. cbn. lia.
Defined.

(** A list of two matrix nodes decodes to the two matrices. *)
Lemma from_dicts_elementwise_witness :
  HCAPreStripStatsCollection.from_dicts
    (PList [BinMatrixStats.to_dict matrix_2x3; BinMatrixStats.to_dict matrix_2x3])
  = Ok [matrix_2x3; matrix_2x3].
Proof.
  destruct from_dicts_elementwise as (H & _).
  apply H. repeat constructor.
Defined.

(** ** Changing a strip and writing it *)

(** X12. Writing a strip after a change.  After [set_number_of_columns] the
    mapping of the strip is the former mapping with the new value under
    "number_of_columns" and nothing else changed.  After [add_bipart_stats]
    (for a QBC strip also [add_unassigned_read]) the sequence under the key
    is the former sequence followed by the mapping of the new element, and
    decoding the mapping gives the changed strip. *)
Theorem strip_changes_are_written :
  (forall (s : HCAStripStats.t) (n : pyval),
     exists items,
       HCAStripStats.to_dict s = PDict items /\
       HCAStripStats.to_dict (HCAStripStats.set_number_of_columns s n)
       = PDict (dict_set items "number_of_columns" n)) /\
  (forall (s : QBCStripStats.t) (n : pyval),
     exists items,
       QBCStripStats.to_dict s = PDict items /\
       QBCStripStats.to_dict (QBCStripStats.set_number_of_columns s n)
       = PDict (dict_set items "number_of_columns" n)) /\
  (forall (s : HCAStripStats.t) (b : BiPartStats.t),
     exists items old,
       HCAStripStats.to_dict s = PDict items /\
       dict_lookup items "bipart_stats" = Some (PList old) /\
       HCAStripStats.to_dict (HCAStripStats.add_bipart_stats s b)
       = PDict (dict_set items "bipart_stats" (PList (old ++ [BiPartStats.to_dict b]))) /\
       HCAStripStats.from_dict (HCAStripStats.to_dict (HCAStripStats.add_bipart_stats s b))
       = Ok (HCAStripStats.add_bipart_stats s b)) /\
  (forall (s : QBCStripStats.t) (b : BiPartStats.t),
     exists items old,
       QBCStripStats.to_dict s = PDict items /\
       dict_lookup items "bipart_stats" = Some (PList old) /\
       QBCStripStats.to_dict (QBCStripStats.add_bipart_stats s b)
       = PDict (dict_set items "bipart_stats" (PList (old ++ [BiPartStats.to_dict b]))) /\
       QBCStripStats.from_dict (QBCStripStats.to_dict (QBCStripStats.add_bipart_stats s b))
       = Ok (QBCStripStats.add_bipart_stats s b)) /\
  (forall (s : QBCStripStats.t) (u : UnassignedReadStats.t),
     exists items old,
       QBCStripStats.to_dict s = PDict items /\
       dict_lookup items "unassigned_reads" = Some (PList old) /\
       QBCStripStats.to_dict (QBCStripStats.add_unassigned_read s u)
       = PDict (dict_set items "unassigned_reads"
                  (PList (old ++ [UnassignedReadStats.to_dict u]))) /\
       QBCStripStats.from_dict
         (QBCStripStats.to_dict (QBCStripStats.add_unassigned_read s u))
       = Ok (QBCStripStats.add_unassigned_read s u)).
Proof.
  split_all.
  - intros s n. eexists. split; reflexivity.
  - intros s n. eexists. split; reflexivity.
  - intros s b. eexists _, _. split; [reflexivity|]. split; [reflexivity|]. split.
    + unfold HCAStripStats.to_dict, HCAStripStats.add_bipart_stats, HCAStripStats.iter.
      cbn -[BiPartStats.to_dict]. rewrite map_app. reflexivity.
    + apply HCAStripStats_round_trip.
  - intros s b. eexists _, _. split; [reflexivity|]. split; [reflexivity|]. split.
    + unfold QBCStripStats.to_dict, QBCStripStats.add_bipart_stats.
      cbn -[BiPartStats.to_dict UnassignedReadStats.to_dict]. rewrite map_app.
      reflexivity.
    + apply QBCStripStats_round_trip.
  - intros s u. eexists _, _. split; [reflexivity|]. split; [reflexivity|]. split.
    + unfold QBCStripStats.to_dict, QBCStripStats.add_unassigned_read.
      cbn -[BiPartStats.to_dict UnassignedReadStats.to_dict]. rewrite map_app.
      reflexivity.
    + apply QBCStripStats_round_trip.
Qed.

(** * Further properties of the encoding *)

Lemma round_trips_injective {A : Type} (to : A -> pyval) (from : pyval -> result A) :
  round_trips to from -> injective to.
Proof.
  intros Hrt x y Hxy. pose proof (Hrt x) as Hx. rewrite Hxy, Hrt in Hx.
  now injection Hx.
Qed.

(** X13. The encoding loses nothing: two records, bundles or documents that
    are written as the same node are equal.  In particular a bundle that is
    absent and one that is present are never written alike. *)
Theorem to_dict_injective :
  injective BinMatrixStats.to_dict /\
  injective BiPartStats.to_dict /\
  injective UnassignedReadStats.to_dict /\
  injective HCAPreStripStatsCollection.to_dicts /\
  injective LowQualityHCAStripStats.to_dict /\
  injective LowQualityHCAStripStatsCollection.to_dicts /\
  injective HCAStripStats.to_dict /\
  injective HCAStripStatsCollection.to_dicts /\
  injective HCAProcessStats.to_dict /\
  injective QBCStripStats.to_dict /\
  injective QBCTrashStripStats.to_dict /\
  injective QBCStripStatsCollection.to_dicts /\
  injective QBCProcessStats.to_dict /\
  injective PostProcessStats.to_dict /\
  injective LociWindowStats.to_dict /\
  injective LociWindowProcessStats.to_dict /\
  injective LociWindowStatsCollection.to_dicts /\
  injective ContigStats.to_dict /\
  injective ContigProcessStats.to_dict /\
  injective ContigProcessStatsCollection.to_dicts.
Proof.
  split_all; eapply round_trips_injective;
    first
      [ apply BinMatrixStats_round_trip
      | apply BiPartStats_round_trip
      | apply UnassignedReadStats_round_trip
      | apply HCAPreStripStatsCollection_round_trip
      | apply LowQualityHCAStripStats_round_trip
      | apply LowQualityHCAStripStatsCollection_round_trip
      | apply HCAStripStats_round_trip
      | apply HCAStripStatsCollection_round_trip
      | apply HCAProcessStats_round_trip
      | apply QBCStripStats_round_trip
      | apply QBCTrashStripStats_round_trip
      | apply QBCStripStatsCollection_round_trip
      | apply QBCProcessStats_round_trip
      | apply PostProcessStats_round_trip
      | apply LociWindowStats_round_trip
      | apply LociWindowProcessStats_round_trip
      | apply LociWindowStatsCollection_round_trip
      | apply ContigStats_round_trip
      | apply ContigProcessStats_round_trip
      | apply ContigProcessStatsCollection_round_trip ].
Qed.

Ltac exact_keys items :=
  repeat (destruct items as [|[? ?] items]; [discriminate|]);
  destruct items; [|discriminate].

(** X14. For the five classes whose attributes are all scalars, a mapping
    that has exactly the keys of the class in the declared order is written
    back unchanged after decoding, whatever its values are. *)
Theorem flat_records_reencode :
  reencodes ["number_of_rows"; "number_of_columns"; "number_of_ones";
             "number_of_zeros"; "density"; "sparsity"]%string
            BinMatrixStats.to_dict BinMatrixStats.from_dict /\
  reencodes ["read_id"; "number_of_ones"; "number_of_zeros"]%string
            UnassignedReadStats.to_dict UnassignedReadStats.from_dict /\
  reencodes ["number_of_initial_haplotypes"; "number_of_low_quality_haplotypes";
             "number_of_final_haplotypes"]%string
            PostProcessStats.to_dict PostProcessStats.from_dict /\
  reencodes ["start_pos"; "stop_pos"]%string
            LociWindowStats.to_dict LociWindowStats.from_dict /\
  reencodes ["contig_name"; "contig_length"]%string
            ContigStats.to_dict ContigStats.from_dict.
Proof.
  split_all; intros items x Hkeys;
    exact_keys items; cbn [map fst] in Hkeys;
    injection Hkeys as -> -> ; intros; subst;
    match goal with H : _ = Ok x |- _ => cbn in H; injection H as <- end;
    reflexivity.
Qed.

(** A matrix node whose counts are strings is written back as it was read. *)
Lemma flat_records_reencode_witness :
  let items := [ ("number_of_rows", PStr "2"); ("number_of_columns", PStr "3");
                 ("number_of_ones", PNone); ("number_of_zeros", PInt (-1));
                 ("density", PBool true); ("sparsity", PList []) ]%string in
  exists x,
    BinMatrixStats.from_dict (PDict items) = Ok x /\
    BinMatrixStats.to_dict x = PDict items.
Proof.
  intros items. destruct flat_records_reencode as (H & _).
  eexists. split; [reflexivity|].
  apply H; reflexivity.
Defined.

(** A window whose first stage did not run and one where it ran and found
    nothing are not written alike. *)
Lemma to_dict_injective_witness :
  LociWindowProcessStats.to_dict
    (LociWindowProcessStats.mk (LociWindowStats.mk (PInt 0) (PInt 100)) None None None)
  <> LociWindowProcessStats.to_dict (window_at 0 100).
Proof.
  destruct to_dict_injective
    as (_ & _ & _ & _ & _ & _ & _ & _ & _ & _ & _ & _ & _ & _ & _ & H & _).
  intros Heq. apply H in Heq. discriminate Heq.
Defined.

(** ** A strip as a sequence *)

(** X15. A strip is a sequence of biparts (a QBC strip also one of
    unassigned reads) for its length and indexing methods.
    [add_bipart_stats] adds one to the number of biparts and puts the new one
    at the last index (also reached as -1), the earlier indices reading what
    they read before; [add_unassigned_read] does the same for the reads.  In
    a QBC strip the two sequences do not interfere, and
    [set_number_of_columns] changes neither. *)
Theorem strips_are_sequences :
  (forall (s : HCAStripStats.t) (b : BiPartStats.t),
     HCAStripStats.__len__ (HCAStripStats.add_bipart_stats s b)
     = HCAStripStats.__len__ s + 1 /\
     HCAStripStats.__getitem__ (HCAStripStats.add_bipart_stats s b)
       (HCAStripStats.__len__ s) = Item b /\
     HCAStripStats.__getitem__ (HCAStripStats.add_bipart_stats s b) (-1) = Item b /\
     (forall i, 0 <= i < HCAStripStats.__len__ s ->
        HCAStripStats.__getitem__ (HCAStripStats.add_bipart_stats s b) i
        = HCAStripStats.__getitem__ s i)) /\
  (forall (s : HCAStripStats.t) (i : Z),
     HCAStripStats.__getitem__ s i = IndexError
     <-> (i < - HCAStripStats.__len__ s \/ HCAStripStats.__len__ s <= i)) /\
  (forall (s : QBCStripStats.t) (b : BiPartStats.t),
     QBCStripStats.number_of_biparts (QBCStripStats.add_bipart_stats s b)
     = S (QBCStripStats.number_of_biparts s) /\
     QBCStripStats.get_bipart (QBCStripStats.add_bipart_stats s b)
       (Z.of_nat (QBCStripStats.number_of_biparts s)) = Item b /\
     QBCStripStats.get_bipart (QBCStripStats.add_bipart_stats s b) (-1) = Item b /\
     (forall i, 0 <= i < Z.of_nat (QBCStripStats.number_of_biparts s) ->
        QBCStripStats.get_bipart (QBCStripStats.add_bipart_stats s b) i
        = QBCStripStats.get_bipart s i) /\
     QBCStripStats.number_of_unassigned_reads (QBCStripStats.add_bipart_stats s b)
     = QBCStripStats.number_of_unassigned_reads s /\
     (forall i, QBCStripStats.get_unassigned_read (QBCStripStats.add_bipart_stats s b) i
                = QBCStripStats.get_unassigned_read s i)) /\
  (forall (s : QBCStripStats.t) (u : UnassignedReadStats.t),
     QBCStripStats.number_of_unassigned_reads (QBCStripStats.add_unassigned_read s u)
     = S (QBCStripStats.number_of_unassigned_reads s) /\
     QBCStripStats.get_unassigned_read (QBCStripStats.add_unassigned_read s u)
       (Z.of_nat (QBCStripStats.number_of_unassigned_reads s)) = Item u /\
     QBCStripStats.get_unassigned_read (QBCStripStats.add_unassigned_read s u) (-1)
     = Item u /\
     (forall i, 0 <= i < Z.of_nat (QBCStripStats.number_of_unassigned_reads s) ->
        QBCStripStats.get_unassigned_read (QBCStripStats.add_unassigned_read s u) i
        = QBCStripStats.get_unassigned_read s i) /\
     QBCStripStats.number_of_biparts (QBCStripStats.add_unassigned_read s u)
     = QBCStripStats.number_of_biparts s /\
     (forall i, QBCStripStats.get_bipart (QBCStripStats.add_unassigned_read s u) i
                = QBCStripStats.get_bipart s i)) /\
  (forall (s : QBCStripStats.t) (n : pyval) (i : Z),
     QBCStripStats.get_bipart (QBCStripStats.set_number_of_columns s n) i
     = QBCStripStats.get_bipart s i /\
     QBCStripStats.get_unassigned_read (QBCStripStats.set_number_of_columns s n) i
     = QBCStripStats.get_unassigned_read s i) /\
  (forall (s : HCAStripStats.t) (n : pyval) (i : Z),
     HCAStripStats.__getitem__ (HCAStripStats.set_number_of_columns s n) i
     = HCAStripStats.__getitem__ s i).
Proof.
  destruct (@list_sequence_laws BiPartStats.t) as (Bl & Bg & Bm & Bk & _ & Be).
  destruct (@list_sequence_laws UnassignedReadStats.t) as (Ul & Ug & Um & Uk & _ & _).
  split_all.
  - intros s b. split_all.
    + exact (Bl (HCAStripStats.bipart_stats s) b).
    + exact (Bg (HCAStripStats.bipart_stats s) b).
    + exact (Bm (HCAStripStats.bipart_stats s) b).
    + intros i Hi. exact (Bk (HCAStripStats.bipart_stats s) b i Hi).
  - intros s i. exact (Be (HCAStripStats.bipart_stats s) i).
  - intros s b. split_all; try reflexivity.
    + unfold QBCStripStats.number_of_biparts, QBCStripStats.add_bipart_stats.
      cbn [QBCStripStats.bipart_stats]. rewrite length_app. cbn [List.length]. lia.
    + exact (Bg (QBCStripStats.bipart_stats s) b).
    + exact (Bm (QBCStripStats.bipart_stats s) b).
    + intros i Hi. exact (Bk (QBCStripStats.bipart_stats s) b i Hi).
  - intros s u. split_all; try reflexivity.
    + unfold QBCStripStats.number_of_unassigned_reads, QBCStripStats.add_unassigned_read.
      cbn [QBCStripStats.unassigned_reads]. rewrite length_app. cbn [List.length]. lia.
    + exact (Ug (QBCStripStats.unassigned_reads s) u).
    + exact (Um (QBCStripStats.unassigned_reads s) u).
    + intros i Hi. exact (Uk (QBCStripStats.unassigned_reads s) u i Hi).
  - intros s n i. split; reflexivity.
  - intros s n i. reflexivity.
Qed.

(** The strip of scenario 3 after one more bipart. *)
Lemma strips_are_sequences_witness :
  let b := BiPartStats.mk (PInt 2) BiPartClass.ONE matrix_2x3 in
  QBCStripStats.get_bipart (QBCStripStats.add_bipart_stats strip_with_two_biparts b) 1
  = QBCStripStats.get_bipart strip_with_two_biparts 1 /\
  QBCStripStats.get_bipart (QBCStripStats.add_bipart_stats strip_with_two_biparts b) 2
  = Item b /\
  QBCStripStats.get_bipart strip_with_two_biparts 2 = IndexError.
Proof.
  intros b. destruct strips_are_sequences as (_ & _ & H & _).
  destruct (H strip_with_two_biparts b) as (_ & Hlast & _ & Hkeep & _).
  split; [apply Hkeep; cbn; lia|]. split; [exact Hlast|reflexivity].
Defined.
